(** * cf-authorizer: the API-gateway token authorizer

    A shallow embedding of the Go package [authorize] (the request
    [Handler], [getToken], [getUserPermissions], the decision builders and
    the two-tier [AuthCache]) together with the properties its
    specification states about it.

    Go strings are byte strings and are modelled by [string]; a Go [error]
    is identified with its [Error()] text; a run-time panic is an explicit
    outcome.  The process-wide variables ([cacheMap], the DynamoDB table,
    the clock, the network) live in an explicit [World]. *)

From Stdlib Require Import ZArith String Ascii List Bool Lia DecimalString.
From stdpp Require Import base strings gmap list.

Set Warnings "-register-all".

Local Open Scope string_scope.

(** ** Go run-time values *)

(** A non-nil [error], identified with the text of its [Error()] method;
    [option error] is an [error] result, [None] being [nil]. *)
Definition error : Type := string.

(** A Go call either returns or panics. *)
Inductive Outcome (A : Type) : Type :=
| Ret (a : A)
| Panic (msg : string).
Arguments Ret {A} a.
Arguments Panic {A} msg.

Definition byteval (c : ascii) : Z := Z.of_N (N_of_ascii c).

(** ** Package [unicode/utf8] *)
Module utf8.

Definition RuneError : Z := 0xFFFD%Z.

Definition maskx : Z := 0x3F%Z.
Definition mask2 : Z := 0x1F%Z.
Definition mask3 : Z := 0x0F%Z.
Definition mask4 : Z := 0x07%Z.
Definition locb : Z := 0x80%Z.
Definition hicb : Z := 0xBF%Z.

Definition xx : Z := 0xF1%Z.
Definition as_ : Z := 0xF0%Z.
Definition s1 : Z := 0x02%Z.
Definition s2 : Z := 0x13%Z.
Definition s3 : Z := 0x03%Z.
Definition s4 : Z := 0x23%Z.
Definition s5 : Z := 0x34%Z.
Definition s6 : Z := 0x04%Z.
Definition s7 : Z := 0x44%Z.

(** The table [first]: information about the first byte of an encoding. *)
Definition first (b : Z) : Z :=
  (if b <? 0x80 then as_
  else if b <? 0xC2 then xx
  else if b <? 0xE0 then s1
  else if b =? 0xE0 then s2
  else if b <? 0xED then s3
  else if b =? 0xED then s4
  else if b <? 0xF0 then s3
  else if b =? 0xF0 then s5
  else if b <? 0xF4 then s6
  else if b =? 0xF4 then s7
  else xx)%Z.

(** The table [acceptRanges]: bounds [(lo, hi)] of the second byte. *)
Definition acceptRanges (i : Z) : Z * Z :=
  match i with
  | 0 => (locb, hicb)
  | 1 => (0xA0, hicb)
  | 2 => (locb, 0x9F)
  | 3 => (0x90, hicb)
  | 4 => (locb, 0x8F)
  | _ => (0, 0)
  end%Z.

(** [utf8.DecodeRuneInString]: the first rune of [s] and its width in
    bytes; an invalid encoding is [(RuneError, 1)]. *)
Definition DecodeRuneInString (s : string) : Z * nat :=
  match s with
  | EmptyString => (RuneError, 0%nat)
  | String c0 t0 =>
    let b0 := byteval c0 in
    let x := first b0 in
    if as_ <=? x then
      ((if Z.odd x then RuneError else b0), 1%nat)
    else
      let sz := Z.land x 7 in
      let accept := acceptRanges (Z.shiftr x 4) in
      if Z.of_nat (String.length s) <? sz then (RuneError, 1%nat)
      else
        match t0 with
        | EmptyString => (RuneError, 1%nat)
        | String c1 t1 =>
          let b1 := byteval c1 in
          if (b1 <? fst accept) || (snd accept <? b1) then (RuneError, 1%nat)
          else if sz <=? 2 then
            (Z.lor (Z.shiftl (Z.land b0 mask2) 6) (Z.land b1 maskx), 2%nat)
          else
            match t1 with
            | EmptyString => (RuneError, 1%nat)
            | String c2 t2 =>
              let b2 := byteval c2 in
              if (b2 <? locb) || (hicb <? b2) then (RuneError, 1%nat)
              else if sz <=? 3 then
                (Z.lor (Z.lor (Z.shiftl (Z.land b0 mask3) 12)
                              (Z.shiftl (Z.land b1 maskx) 6))
                       (Z.land b2 maskx), 3%nat)
              else
                match t2 with
                | EmptyString => (RuneError, 1%nat)
                | String c3 _ =>
                  let b3 := byteval c3 in
                  if (b3 <? locb) || (hicb <? b3) then (RuneError, 1%nat)
                  else
                    (Z.lor (Z.lor (Z.lor (Z.shiftl (Z.land b0 mask4) 18)
                                         (Z.shiftl (Z.land b1 maskx) 12))
                                  (Z.shiftl (Z.land b2 maskx) 6))
                           (Z.land b3 maskx), 4%nat)
                end
            end
        end
  end%Z.

End utf8.

(** ** Package [unicode] *)
Module unicode.

Definition MaxLatin1 : Z := 0xFF%Z.

(** [unicode.IsSpace]: the Latin-1 spaces are listed by hand, the others
    come from the range table [White_Space]. *)
Definition IsSpace (r : Z) : bool :=
  if (r <=? MaxLatin1)%Z then
    match r with
    | 0x09 | 0x0A | 0x0B | 0x0C | 0x0D | 0x20 | 0x85 | 0xA0 => true
    | _ => false
    end%Z
  else
    ((r =? 0x1680) || ((0x2000 <=? r) && (r <=? 0x200A))
     || ((0x2028 <=? r) && (r <=? 0x2029)) || (r =? 0x202F)
     || (r =? 0x205F) || (r =? 0x3000))%Z.

End unicode.

(** ** Package [strings] *)
Module strings.

(** [strings.Contains]. *)
Fixpoint Contains (s substr : string) : bool :=
  String.prefix substr s
  || match s with
     | EmptyString => false
     | String _ s' => Contains s' substr
     end.

(** [strings.Join]. *)
Fixpoint Join (elems : list string) (sep : string) : string :=
  match elems with
  | [] => ""
  | [e] => e
  | e :: rest => e +:+ sep +:+ Join rest sep
  end.

Fixpoint splitLoop (sep : ascii) (s cur : string) : list string :=
  match s with
  | EmptyString => [cur]
  | String c s' =>
    if Ascii.eqb c sep then cur :: splitLoop sep s' ""
    else splitLoop sep s' (cur +:+ String c "")
  end.

(** [strings.Split(s, sep)] for a one-byte separator [sep], the only way
    the authorizer calls it: [s] is cut at every occurrence of [sep]. *)
Definition Split (s : string) (sep : ascii) : list string :=
  splitLoop sep s "".

Definition flush (cur : option string) : list string :=
  match cur with
  | Some w => [w]
  | None => []
  end.

Definition started (cur : option string) : string :=
  match cur with
  | Some w => w
  | None => ""
  end.

(** The loop of [strings.FieldsFunc], byte by byte: [pending] counts the
    bytes still to come of the rune decoded last, [cur] is the field
    being read ([None] between fields). *)
Fixpoint fieldsLoop (f : Z -> bool) (s : string) (pending : nat)
         (cur : option string) : list string :=
  match s with
  | EmptyString => flush cur
  | String c s' =>
    match pending with
    | S p =>
      fieldsLoop f s' p (option_map (fun w => w +:+ String c "") cur)
    | O =>
      let (r, size) := utf8.DecodeRuneInString s in
      if f r then flush cur ++ fieldsLoop f s' (size - 1) None
      else
        fieldsLoop f s' (size - 1) (Some (started cur +:+ String c ""))
    end
  end.

Definition FieldsFunc (s : string) (f : Z -> bool) : list string :=
  fieldsLoop f s 0 None.

(** [strings.Fields]: the maximal runs of non-space runes of [s], white
    space being [unicode.IsSpace]. *)
Definition Fields (s : string) : list string :=
  FieldsFunc s unicode.IsSpace.

End strings.

(** ** Package [regexp], as far as the pattern of [getToken] needs it *)
Module regexp.

Inductive atom : Type :=
| Lit (c : ascii)          (* a literal byte *)
| Dot                      (* [.]: anything but a newline *)
| StarDot.                 (* [.*] *)

Definition matchesDot (c : ascii) : bool := negb (Ascii.eqb c "010"%char).

(** Does the pattern match a prefix of the text? *)
Fixpoint matchHere (re : list atom) : string -> bool :=
  match re with
  | [] => fun _ => true
  | Lit c :: re' =>
    fun text =>
      match text with
      | String x t => Ascii.eqb x c && matchHere re' t
      | EmptyString => false
      end
  | Dot :: re' =>
    fun text =>
      match text with
      | String x t => matchesDot x && matchHere re' t
      | EmptyString => false
      end
  | StarDot :: re' =>
    fix star (text : string) : bool :=
      matchHere re' text
      || match text with
         | String x t => matchesDot x && star t
         | EmptyString => false
         end
  end.

(** [regexp.MatchString]: the pattern is not anchored, so it may match
    anywhere in the text. *)
Fixpoint MatchString (re : list atom) (s : string) : bool :=
  matchHere re s
  || match s with
     | String _ s' => MatchString re s'
     | EmptyString => false
     end.

End regexp.

(** The pattern of [getToken]: the seven bytes of [Bearer ] and then a
    capture group holding a starred dot; the group only marks what a
    submatch would return and does not change what matches. *)
Definition bearerPattern : list regexp.atom :=
  [regexp.Lit "B"; regexp.Lit "e"; regexp.Lit "a"; regexp.Lit "r";
   regexp.Lit "e"; regexp.Lit "r"; regexp.Lit " "; regexp.StarDot]%char.

(** ** Package [events] of aws-lambda-go *)

Record APIGatewayCustomAuthorizerRequest : Type := {
  Type_ : string;
  AuthorizationToken : string;
  MethodArn : string
}.

(** ** [getToken] *)

Definition errNotToken : error :=
  "expected 'event.Type' parameter to have value 'TOKEN'".
Definition errEmptyToken : error :=
  "expected 'event.AuthorizationToken' parameter to not be empty".
Definition errNoBearer : error :=
  "invalid authorization token - The provided 'Authorization' header does not match 'Bearer .*'".

(** The panic of an indexing [a[i]] out of range. *)
Definition indexPanic (i len : nat) : string :=
  "runtime error: index out of range [" +:+ NilZero.string_of_int (Z.to_int (Z.of_nat i))
  +:+ "] with length " +:+ NilZero.string_of_int (Z.to_int (Z.of_nat len)).

Definition getToken (event : APIGatewayCustomAuthorizerRequest)
  : Outcome (string * option error) :=
  if negb (String.eqb (Type_ event) "TOKEN") then Ret ("", Some errNotToken)
  else
    let tokenString := AuthorizationToken event in
    if (String.length tokenString <=? 0)%nat then Ret ("", Some errEmptyToken)
    else
      let match_ := regexp.MatchString bearerPattern tokenString in
      if negb match_ then Ret ("", Some errNoBearer)
      else
        let tokenParts := strings.Fields tokenString in
        match tokenParts !! 1%nat with
        | Some part => Ret (part, None)
        | None => Panic (indexPanic 1 (length tokenParts))
        end.


Record IAMPolicyStatement : Type := {
  Action : list string;
  Effect : string;
  Resource : list string
}.

Record APIGatewayCustomAuthorizerPolicy : Type := {
  Version : string;
  Statement : list IAMPolicyStatement
}.

(** The [Context] of a response is a [map[string]interface{}]; the
    authorizer only ever stores strings in it.  The fields that it never
    sets, and that keep their zero value, are left out. *)
Record APIGatewayCustomAuthorizerResponse : Type := {
  PrincipalID : string;
  PolicyDocument : APIGatewayCustomAuthorizerPolicy;
  Context_ : gmap string string
}.

(** ** Package [time] *)
Module time.

(** An instant, as its wall-clock reading in nanoseconds since the Unix
    epoch, and a duration in nanoseconds. *)
Definition Time : Type := Z.
Definition Duration : Type := Z.

Definition Millisecond : Duration := 1000000%Z.
Definition Minute : Duration := 60000000000%Z.

(** [t.After(u)]. *)
Definition After (t u : Time) : bool := (u <? t)%Z.

(** [t.Add(d)]. *)
Definition Add (t : Time) (d : Duration) : Time := (t + d)%Z.

End time.

(** ** Package [jwt] (golang-jwt v5): what [jwt.Parse] hands back *)
Module jwt.

(** A decoded JSON value, Go's [interface{}] after [encoding/json]. The
    authorizer never looks at the value of a number. *)
Inductive Value : Type :=
| Null
| Bool (b : bool)
| Number (n : Z)
| Str (s : string)
| Array (l : list Value)
| Object (fields : list (string * Value)).

Inductive SigningMethod : Type :=
| SigningMethodRSA (alg : string)
| SigningMethodOther (alg : string).

Record Token : Type := {
  Valid : bool;
  Method : SigningMethod;
  Header : gmap string Value;
  Claims : gmap string Value
}.

(** The [error] of [jwt.Parse]: its text and the sentinel errors that
    [errors.Is] finds in it. *)
Record ParseError : Type := {
  Error : string;
  isErrTokenMalformed : bool;
  isErrTokenSignatureInvalid : bool;
  isErrTokenExpired : bool;
  isErrTokenNotValidYet : bool
}.

Definition errInvalidClaim (key : string) : error :=
  "token has invalid claims: " +:+ key +:+ " is invalid".

Fixpoint claimStrings (key : string) (l : list Value) : list string + error :=
  match l with
  | [] => inl []
  | Str vs :: rest =>
    match claimStrings key rest with
    | inl cs => inl (vs :: cs)
    | inr e => inr e
    end
  | _ :: _ => inr (errInvalidClaim key)
  end.

(** [MapClaims.parseClaimsString]: a string or an array of strings; any
    other value, and an absent claim, is an empty list and no error. *)
Definition parseClaimsString (m : gmap string Value) (key : string)
  : list string + error :=
  match m !! key with
  | Some (Str v) => inl [v]
  | Some (Array l) => claimStrings key l
  | _ => inl []
  end.

Definition GetAudience (m : gmap string Value) : list string + error :=
  parseClaimsString m "aud".

End jwt.

(** A type assertion [v.(string)] with its [ok] flag, on the value found
    under a key of a claims map. *)
Definition asString (v : option jwt.Value) : option string :=
  match v with
  | Some (jwt.Str s) => Some s
  | _ => None
  end.

(** [m[key] == nil] for a [map[string]interface{}]. *)
Definition isNil (v : option jwt.Value) : bool :=
  match v with
  | None | Some jwt.Null => true
  | Some _ => false
  end.

(** ** The cache records of [authCache.go] *)

Record AuthCacheValue : Type := {
  Permissions : list string;
  Expiration : time.Time
}.

(** [timestampLayout] is [2006-01-02T15:04:05.0000000Z]: UTC with seven
    fractional digits.  A text in this layout is determined by the number
    of 100-nanosecond units since the epoch that it spells, and is
    modelled by that number. *)
Definition Timestamp : Type := Z.

(** [t.UTC().Format(timestampLayout)]: digits below 100ns are dropped. *)
Definition Format (t : time.Time) : Timestamp := (t / 100)%Z.

(** 0000-01-01T00:00:00Z and 10000-01-01T00:00:00Z in seconds since the
    epoch: the layout has four year digits. *)
Definition year0 : Z := (-62167219200)%Z.
Definition year10000 : Z := 253402300800%Z.

(** The wording of the decoder's error is the library's; nothing reads it. *)
Definition errParseTime : error := "parsing time: cannot parse as RFC 3339".

(** The attribute decoder reads a string attribute into a [time.Time]
    with [time.Parse(time.RFC3339, s)], which accepts the fraction and the
    [Z] of the layout and needs a year of exactly four digits. *)
Definition decodeTime (s : Timestamp) : time.Time + error :=
  if ((year0 * 10000000 <=? s) && (s <? year10000 * 10000000))%Z
  then inl (s * 100)%Z
  else inr errParseTime.

Module AuthCacheValueEntity.
Record t : Type := {
  PK : string;
  SK : string;
  Permissions : list string;
  Expiration : Timestamp
}.
End AuthCacheValueEntity.

(** [attributevalue.UnmarshalMap(item, &authIdValue)] into an
    [AuthCacheValue]: the attributes [Permissions] and [Expiration]. *)
Definition UnmarshalMap (item : AuthCacheValueEntity.t) : AuthCacheValue + error :=
  match decodeTime (AuthCacheValueEntity.Expiration item) with
  | inl t =>
    inl {| Permissions := AuthCacheValueEntity.Permissions item; Expiration := t |}
  | inr e => inr e
  end.

(** ** Package [net/http], as the permissions call uses it *)
Module http.

Record Request : Type := {
  Method : string;
  URL : string;
  Header : list (string * string)
}.

(** [UserPermission], the element of the permissions response. *)
Record UserPermission : Type := {
  PermissionName : string;
  Description : string;
  ResourceServerName : string;
  ResourceServerId : string
}.

(** A response: its status and its body as [json.Decoder.Decode] reads
    it into a [[]UserPermission]. *)
Record Response : Type := {
  StatusCode : Z;
  Body : list UserPermission + error
}.

End http.

(** ** The execution environment *)

Record AuthTokenConfig : Type := {
  JwksUri : string;
  Issuer : string;
  ClientId : string;
  ClientSecret : string;
  TokenAudience : string;
  ClientAudience : string;
  GrantType : string
}.

(** What a request can only read: the [Authorizer] set up by [InitLambda]
    and the outside world's answers.
    - [JWTKeyFunction] is [None] when [keyfunc.NewDefaultCtx] failed, which
      [InitLambda] only prints; otherwise it is what
      [jwt.Parse(token, Authorizer.JWTKeyFunction.Keyfunc)] returns;
    - [cachedToken] is [None] when [acquireToken] failed, which
      [InitLambda] ignores;
    - [NewRequest_err url] is the error of [http.NewRequest("GET", url, nil)];
    - [Do] is [httpInstance.Do];
    - [clock n] is the reading of the [n]-th call of [time.Now()]. *)
Record Env : Type := {
  Config : AuthTokenConfig;
  JWTKeyFunction : option (string -> option jwt.Token * option jwt.ParseError);
  cachedToken : option string;
  NewRequest_err : string -> option error;
  Do : http.Request -> http.Response + error;
  clock : nat -> time.Time
}.

(** The DynamoDB table behind [AuthCache]: its items by (PK, SK), and the
    error with which [GetItem] and [PutItem] currently fail, if they do. *)
Record DynamoDb : Type := {
  items : gmap (string * string) AuthCacheValueEntity.t;
  GetItem_err : option error;
  PutItem_err : option error
}.

(** What a request does to the caches and to the network. *)
Inductive Event : Type :=
| CacheMapRead (authId : string)
| CacheMapWrite (authId : string)
| GetItem (key : string * string)
| PutItem (item : AuthCacheValueEntity.t)
| HttpDo (req : http.Request).

(** The mutable state: the ephemeral tier [cacheMap], the durable tier,
    the number of clock readings taken and the log of cache and network
    operations. *)
Record World : Type := {
  cacheMap : gmap string AuthCacheValue;
  DynamoDb_ : DynamoDb;
  ticks : nat;
  trace : list Event
}.

(** ** State and panics *)

Definition M (A : Type) : Type := World -> Outcome (A * World).

Definition ret {A : Type} (a : A) : M A := fun w => Ret (a, w).

Definition panic {A : Type} (msg : string) : M A := fun _ => Panic msg.

Definition bind {A B : Type} (m : M A) (k : A -> M B) : M B :=
  fun w =>
    match m w with
    | Ret (a, w') => k a w'
    | Panic msg => Panic msg
    end.

Notation "'let*' x := m 'in' k" := (bind m (fun x => k))
  (at level 10, x name, m at level 100, k at level 200, only parsing).

(** The state with one more logged operation, with one more clock
    reading, with another ephemeral map, with another table. *)
Definition logged (e : Event) (w : World) : World :=
  {| cacheMap := cacheMap w; DynamoDb_ := DynamoDb_ w;
     ticks := ticks w; trace := trace w ++ [e] |}.

Definition ticked (w : World) : World :=
  {| cacheMap := cacheMap w; DynamoDb_ := DynamoDb_ w;
     ticks := S (ticks w); trace := trace w |}.

Definition withCacheMap (m : gmap string AuthCacheValue) (w : World) : World :=
  {| cacheMap := m; DynamoDb_ := DynamoDb_ w;
     ticks := ticks w; trace := trace w |}.

Definition withItems (m : gmap (string * string) AuthCacheValueEntity.t)
           (w : World) : World :=
  {| cacheMap := cacheMap w;
     DynamoDb_ := {| items := m; GetItem_err := GetItem_err (DynamoDb_ w);
                     PutItem_err := PutItem_err (DynamoDb_ w) |};
     ticks := ticks w; trace := trace w |}.

Definition emit (e : Event) : M unit := fun w => Ret (tt, logged e w).

(** [time.Now()]. *)
Definition Now (env : Env) : M time.Time :=
  fun w => Ret (clock env (ticks w), ticked w).

Definition nilDeref : string :=
  "runtime error: invalid memory address or nil pointer dereference".

(** ** [AuthCache.TryGet] and [AuthCache.TryPut] *)

Definition errGetItem (authId : string) (e : error) : error :=
  "unable to retrieve cache value with id " +:+ authId +:+ ": " +:+ e.
Definition errUnmarshal (e : error) : error :=
  "unable to parse response: " +:+ e.
Definition errPutItem (e : error) : error :=
  "unable to store authId cache value: " +:+ e.

(** The strongly consistent [GetItem] of the key [{PK: authId, SK: authId}]
    and the decoding of what it returns. *)
Definition readItem (authId : string) : M (option AuthCacheValue * option error) :=
  let* _ := emit (GetItem (authId, authId)) in
  fun w =>
    match GetItem_err (DynamoDb_ w) with
    | Some e => Ret ((None, Some (errGetItem authId e)), w)
    | None =>
      match items (DynamoDb_ w) !! (authId, authId) with
      | None => Ret ((None, None), w)
      | Some item =>
        match UnmarshalMap item with
        | inr e => Ret ((None, Some (errUnmarshal e)), w)
        | inl authIdValue => Ret ((Some authIdValue, None), w)
        end
      end
    end.

Definition TryGet (env : Env) (authId : string)
  : M (option AuthCacheValue * option error) :=
  let* _ := emit (CacheMapRead authId) in
  fun w =>
    match cacheMap w !! authId with
    | Some val =>
      (let* now := Now env in
       if time.After (Expiration val) now then ret (Some val, None)
       else readItem authId) w
    | None => readItem authId w
    end.

(** [cacheMap[authId] = *value]. *)
Definition storeCacheMap (authId : string) (value : AuthCacheValue) : M unit :=
  let* _ := emit (CacheMapWrite authId) in
  fun w => Ret (tt, withCacheMap (<[authId := value]> (cacheMap w)) w).

(** [DynamoDb.PutItem]: the item replaces the one under its key, unless
    the table refuses the write. *)
Definition putItem (item : AuthCacheValueEntity.t) : M (option error) :=
  let* _ := emit (PutItem item) in
  fun w =>
    match PutItem_err (DynamoDb_ w) with
    | Some e => Ret (Some e, w)
    | None =>
      let key := (AuthCacheValueEntity.PK item, AuthCacheValueEntity.SK item) in
      Ret (None, withItems (<[key := item]> (items (DynamoDb_ w))) w)
    end.

(** [MarshalMap] of an entity, whose fields are strings and a list of
    strings, has no failing case. *)
Definition TryPut (authId : string) (value : AuthCacheValue) : M (option error) :=
  let* _ := storeCacheMap authId value in
  let expiration := Format (Expiration value) in
  let valueEntity :=
    {| AuthCacheValueEntity.PK := authId;
       AuthCacheValueEntity.SK := authId;
       AuthCacheValueEntity.Permissions := Permissions value;
       AuthCacheValueEntity.Expiration := expiration |} in
  let* err := putItem valueEntity in
  match err with
  | Some e => ret (Some (errPutItem e))
  | None => ret None
  end.

(** ** [getUserPermissions] *)

Definition itoa (n : Z) : string := NilZero.string_of_int (Z.to_int n).

Definition errStatus (code : Z) : error :=
  "error retrieving user permissions: " +:+ itoa code.
Definition errDecode (e : error) : error :=
  "error parsing user permissions: " +:+ e.

Definition permissionsUrl (env : Env) (principalId : string) : string :=
  Issuer (Config env) +:+ "api/v2/users/" +:+ principalId +:+ "/permissions".

(** The body of the goroutine started by [getUserPermissions]: what it
    sends, on [permissionsChan] ([inl]) or on [errChan] ([inr]). *)
Definition fetchPermissions (env : Env) (principalId : string)
  : M (list string + error) :=
  let reqUrl := permissionsUrl env principalId in
  match NewRequest_err env reqUrl with
  | Some err => ret (inr err)
  | None =>
    match cachedToken env with
    | None => panic nilDeref
    | Some accessToken =>
      let req :=
        {| http.Method := "GET"; http.URL := reqUrl;
           http.Header := [("Accept", "application/json");
                           ("Authorization", "Bearer " +:+ accessToken)] |} in
      let* _ := emit (HttpDo req) in
      match Do env req with
      | inr err => ret (inr err)
      | inl resp =>
        if negb (http.StatusCode resp =? 200)%Z then
          ret (inr (errStatus (http.StatusCode resp)))
        else
          match http.Body resp with
          | inr err => ret (inr (errDecode err))
          | inl respBody =>
            let permissionsArray := map http.PermissionName respBody in
            let* now := Now env in
            let* _ :=
              TryPut principalId
                     {| Permissions := permissionsArray;
                        Expiration := time.Add now (1000 * 900 * time.Millisecond)%Z |} in
            ret (inl permissionsArray)
          end
      end
    end
  end.

(** [authCache != nil && authCache.Expiration.After(time.Now())]: the clock
    is read only when there is a value. *)
Definition isFresh (env : Env) (authCache : option AuthCacheValue) : M bool :=
  match authCache with
  | Some v => let* now := Now env in ret (time.After (Expiration v) now)
  | None => ret false
  end.

Definition joined (authCache : option AuthCacheValue) : string :=
  match authCache with
  | Some v => strings.Join (Permissions v) ","
  | None => ""
  end.

(** What [getUserPermissions] does once [authCache] holds the result of
    the lookup.  The goroutine is started before the second test of
    [authCache]; it reaches the network only after that test, and it runs
    to its end whether or not its message is received. *)
Definition resolveWith (env : Env) (principalId : string)
           (authCache : option AuthCacheValue) : M (string * option error) :=
  let* fresh := isFresh env authCache in
  if fresh then ret (joined authCache, None)
  else
    let* again := isFresh env authCache in
    let* sent := fetchPermissions env principalId in
    if again then ret (joined authCache, None)
    else
      match sent with
      | inl permissionsArray => ret (strings.Join permissionsArray ",", None)
      | inr err => ret ("", Some err)
      end.

Definition getUserPermissions (env : Env) (principalId : string)
  : M (string * option error) :=
  let* looked := TryGet env principalId in
  resolveWith env principalId (fst looked).

(** ** The decision builders *)

Definition getDenyResponse (principalId methodArn message : string)
  : APIGatewayCustomAuthorizerResponse :=
  let context : gmap string string := <["ErrorMessage" := message]> ∅ in
  let policyStatement :=
    {| Action := ["execute-api:Invoke"]; Effect := "Deny";
       Resource := [methodArn] |} in
  let policyDocument :=
    {| Version := "2012-10-17"; Statement := [policyStatement] |} in
  {| PrincipalID := principalId; PolicyDocument := policyDocument;
     Context_ := context |}.

Definition getSuccessResponse (principalId methodArn : string)
           (context : gmap string string)
  : APIGatewayCustomAuthorizerResponse :=
  let policyStatement :=
    {| Action := ["execute-api:Invoke"]; Effect := "Allow";
       Resource := [methodArn] |} in
  let policyDocument :=
    {| Version := "2012-10-17"; Statement := [policyStatement] |} in
  {| PrincipalID := principalId; PolicyDocument := policyDocument;
     Context_ := context |}.

(** ** [Handler] *)

(** The panic of a failed type assertion [v.(string)]. *)
Definition conversionPanic (v : option jwt.Value) : string :=
  "interface conversion: interface {} is "
  +:+ match v with
      | None | Some jwt.Null => "nil"
      | Some (jwt.Bool _) => "bool"
      | Some (jwt.Number _) => "float64"
      | Some (jwt.Str _) => "string"
      | Some (jwt.Array _) => "[]interface {}"
      | Some (jwt.Object _) => "map[string]interface {}"
      end
  +:+ ", not string".

Definition isRSA (m : jwt.SigningMethod) : bool :=
  match m with
  | jwt.SigningMethodRSA _ => true
  | jwt.SigningMethodOther _ => false
  end.

(** The request handler.  Its two results are the response and the Go
    [error]; the goroutine and the [select] around [getUserPermissions]
    wait for the one message that goroutine sends.  Logging is left out. *)
Definition Handler (env : Env) (req : APIGatewayCustomAuthorizerRequest)
  : M (APIGatewayCustomAuthorizerResponse * option error) :=
  let deny (principalId message : string)
      : M (APIGatewayCustomAuthorizerResponse * option error) :=
      ret (getDenyResponse principalId (MethodArn req) message, None) in
  match getToken req with
  | Panic msg => panic msg
  | Ret (_, Some _) => deny "" "Unauthorized"
  | Ret (token, None) =>
    match JWTKeyFunction env with
    | None => panic nilDeref
    | Some parse =>
      let (decodedToken, err) := parse token in
      match err with
      | Some err =>
        if jwt.isErrTokenMalformed err then
          deny "" "Unauthorized: Malformed Token"
        else if jwt.isErrTokenSignatureInvalid err then
          deny "" "Unauthorized: Invalid Signature"
        else if jwt.isErrTokenExpired err || jwt.isErrTokenNotValidYet err then
          deny "" "Unauthorized: Expired Token"
        else
          deny "" "Unauthorized: Unable to decode token"
      | None =>
        let tokenPayload : gmap string jwt.Value :=
          match decodedToken with
          | Some t => jwt.Claims t
          | None => ∅
          end in
        match jwt.GetAudience tokenPayload with
        | inr _ =>
          deny "" "Unauthorized: Token missing 'aud' claim or claim is invalid"
        | inl audClaims =>
          let located :=
            existsb (fun audClaim => String.eqb audClaim (TokenAudience (Config env)))
                    audClaims in
          if negb located then
            deny "" "Unauthorized: Token 'aud' claim missing registered audience"
          else
            match decodedToken with
            | None => panic nilDeref
            | Some tok =>
              if negb (jwt.Valid tok) then
                deny "" "Unauthorized: Token failed validation"
              else if negb (isRSA (jwt.Method tok)) then
                deny "" "Unauthorized: Token uses invalid signing method"
              else if isNil (jwt.Header tok !! "alg") then
                deny "" "Unauthorized: Token missing required 'alg' claim"
              else
                match asString (tokenPayload !! "iss") with
                | None => panic (conversionPanic (tokenPayload !! "iss"))
                | Some iss =>
                  if negb (strings.Contains iss (Issuer (Config env))) then
                    deny "" "Unauthorized: Token uses invalid 'iss' claim"
                  else
                    match asString (tokenPayload !! "sub") with
                    | None =>
                      deny "" "Unauthorized: Token missing required 'sub' claim"
                    | Some principalId =>
                      let lContext : gmap string string :=
                        <["requesterId" := principalId]> ∅ in
                      let isAppToken := negb (strings.Contains principalId "auth0") in
                      match asString (tokenPayload !! "scope") with
                      | None =>
                        deny principalId
                             "Unauthorized: Token missing required 'roles' claim"
                      | Some scopes =>
                        if isAppToken then
                          let scopesArray := strings.Split scopes " " in
                          let lContext :=
                            <["permissions" := strings.Join scopesArray ","]> lContext in
                          ret (getSuccessResponse principalId (MethodArn req) lContext, None)
                        else
                          let* res := getUserPermissions env principalId in
                          match res with
                          | (_, Some err) => deny principalId err
                          | (permissionsArray, None) =>
                            let lContext :=
                              <["permissions" := permissionsArray]> lContext in
                            ret (getSuccessResponse principalId (MethodArn req) lContext, None)
                          end
                      end
                    end
                end
            end
        end
      end
    end
  end.


(** * Vocabulary of the properties *)

(** A byte below [0x80] that is no white space. *)
Definition plainByte (c : ascii) : bool :=
  ((byteval c <? 0x80)%Z && negb (unicode.IsSpace (byteval c))).

Fixpoint allBytes (p : ascii -> bool) (s : string) : bool :=
  match s with
  | EmptyString => true
  | String c s' => p c && allBytes p s'
  end.

(** The extractor as the specification words it: the prefix [Bearer ] and
    then a remainder that is not empty, which is the token. *)
Definition specToken (s : string) : option string :=
  match s with
  | String "B" (String "e" (String "a" (String "r" (String "e" (String "r"
      (String " " (String c rest))))))) => Some (String c rest)
  | _ => None
  end.

(** The claim about the extractor, for one request: it fails on a header
    that is not [Bearer ] and a non-empty remainder, and a token it returns
    is that remainder. *)
Definition extractsAsSpecified (event : APIGatewayCustomAuthorizerRequest) : Prop :=
  (specToken (AuthorizationToken event) = None ->
   exists err, getToken event = Ret ("", Some err))
  /\ (forall token, getToken event = Ret (token, None) ->
                    specToken (AuthorizationToken event) = Some token).

Definition tokenRequest (header : string) : APIGatewayCustomAuthorizerRequest :=
  {| Type_ := "TOKEN"; AuthorizationToken := header; MethodArn := "arn:aws:execute-api:eu-west-1:1:api/GET/x" |}.

Definition missingSub : string :=
  "Unauthorized: Token missing required 'sub' claim".
Definition missingScope : string :=
  "Unauthorized: Token missing required 'roles' claim".

(** The context of an Allow decision. *)
Definition allowContext (principalId permissions : string) : gmap string string :=
  <["permissions" := permissions]> (<["requesterId" := principalId]> ∅).

Definition located (env : Env) (audClaims : list string) : bool :=
  existsb (fun audClaim => String.eqb audClaim (TokenAudience (Config env))) audClaims.

(** The request carries a token that [jwt.Parse] accepts as [tok], and
    [tok] passes the checks of [Handler] up to and including the issuer:
    audience, validity, RSA, [alg], [iss]. *)
Definition verified (env : Env) (req : APIGatewayCustomAuthorizerRequest)
           (tok : jwt.Token) : Prop :=
  exists token parse audClaims iss,
    getToken req = Ret (token, None)
    /\ JWTKeyFunction env = Some parse
    /\ parse token = (Some tok, None)
    /\ jwt.GetAudience (jwt.Claims tok) = inl audClaims
    /\ located env audClaims = true
    /\ jwt.Valid tok = true
    /\ isRSA (jwt.Method tok) = true
    /\ isNil (jwt.Header tok !! "alg") = false
    /\ asString (jwt.Claims tok !! "iss") = Some iss
    /\ strings.Contains iss (Issuer (Config env)) = true.

(** The same, but for the issuer claim, which is absent or not a string. *)
Definition verifiedButIssuer (env : Env) (req : APIGatewayCustomAuthorizerRequest)
           (tok : jwt.Token) : Prop :=
  exists token parse audClaims,
    getToken req = Ret (token, None)
    /\ JWTKeyFunction env = Some parse
    /\ parse token = (Some tok, None)
    /\ jwt.GetAudience (jwt.Claims tok) = inl audClaims
    /\ located env audClaims = true
    /\ jwt.Valid tok = true
    /\ isRSA (jwt.Method tok) = true
    /\ isNil (jwt.Header tok !! "alg") = false
    /\ asString (jwt.Claims tok !! "iss") = None.

(** A response is a decision on [methodArn]: one statement, and the
    context that goes with its effect. *)
Definition isDecision (methodArn : string)
           (resp : APIGatewayCustomAuthorizerResponse) : Prop :=
  exists effect,
    PolicyDocument resp =
    {| Version := "2012-10-17";
       Statement := [{| Action := ["execute-api:Invoke"]; Effect := effect;
                        Resource := [methodArn] |}] |}
    /\ ((effect = "Deny"
         /\ exists message, Context_ resp = <["ErrorMessage" := message]> ∅)
        \/ (effect = "Allow"
            /\ exists permissions : list string,
                Context_ resp =
                allowContext (PrincipalID resp) (strings.Join permissions ","))).

(** "Absent or the empty string", for a claim. *)
Definition absentOrEmpty (v : option jwt.Value) : Prop :=
  v = None \/ v = Some (jwt.Str "").

(** C5 as the specification states it, for one token: without a subject
    the outcome is the missing-subject one, without a scope the
    missing-scope one. *)
Definition requiresSubjectAndScope (env : Env)
           (req : APIGatewayCustomAuthorizerRequest) (tok : jwt.Token)
           (w : World) : Prop :=
  (absentOrEmpty (jwt.Claims tok !! "sub") ->
   exists w', Handler env req w =
              Ret ((getDenyResponse "" (MethodArn req) missingSub, None), w'))
  /\ (absentOrEmpty (jwt.Claims tok !! "scope") ->
      exists principalId w',
        Handler env req w =
        Ret ((getDenyResponse principalId (MethodArn req) missingScope, None), w')).

(** C6 as the specification states it, for one token: Allow, with the
    scope claim split on white space, the world untouched. *)
Definition allowsScopeFields (env : Env)
           (req : APIGatewayCustomAuthorizerRequest)
           (principalId scopes : string) (w : World) : Prop :=
  Handler env req w =
  Ret ((getSuccessResponse principalId (MethodArn req)
          (allowContext principalId (strings.Join (strings.Fields scopes) ",")),
        None), w).

(** A Deny decision whose context carries [text]. *)
Definition deniesWith (text : string)
           (r : Outcome (APIGatewayCustomAuthorizerResponse * option error * World))
  : Prop :=
  exists resp w',
    r = Ret ((resp, None), w')
    /\ map Effect (Statement (PolicyDocument resp)) = ["Deny"]
    /\ exists message,
        Context_ resp !! "ErrorMessage" = Some message
        /\ strings.Contains message text = true.

(** [getUserPermissions] with the steps [others] of concurrent requests
    taking place between its lookup and what follows it. *)
Definition getUserPermissionsAmid (env : Env) (principalId : string)
           (others : M unit) : M (string * option error) :=
  let* looked := TryGet env principalId in
  let* _ := others in
  resolveWith env principalId (fst looked).

(** The request that [fetchPermissions] sends. *)
Definition permissionsRequest (env : Env) (principalId accessToken : string)
  : http.Request :=
  {| http.Method := "GET"; http.URL := permissionsUrl env principalId;
     http.Header := [("Accept", "application/json");
                     ("Authorization", "Bearer " +:+ accessToken)] |}.

(** The upstream call for [principalId] answers 200 with [respBody]. *)
Definition fetchSucceeds (env : Env) (principalId : string)
           (respBody : list http.UserPermission) : Prop :=
  NewRequest_err env (permissionsUrl env principalId) = None
  /\ exists accessToken,
      cachedToken env = Some accessToken
      /\ Do env (permissionsRequest env principalId accessToken)
         = inl {| http.StatusCode := 200; http.Body := inl respBody |}.

(** From the [n]-th clock reading on, [v] has expired. *)
Definition staleFrom (env : Env) (n : nat) (v : AuthCacheValue) : Prop :=
  forall k, (n <= k)%nat -> time.After (Expiration v) (clock env k) = false.

(** Neither tier holds an entry for [authId] that is still fresh. *)
Definition noUsableEntry (env : Env) (w : World) (authId : string) : Prop :=
  (forall v, cacheMap w !! authId = Some v -> staleFrom env (ticks w) v)
  /\ (forall item v,
         GetItem_err (DynamoDb_ w) = None ->
         items (DynamoDb_ w) !! (authId, authId) = Some item ->
         UnmarshalMap item = inl v ->
         staleFrom env (ticks w) v).

(** The entity that [TryPut] writes for a value. *)
Definition entityOf (authId : string) (value : AuthCacheValue)
  : AuthCacheValueEntity.t :=
  {| AuthCacheValueEntity.PK := authId;
     AuthCacheValueEntity.SK := authId;
     AuthCacheValueEntity.Permissions := Permissions value;
     AuthCacheValueEntity.Expiration := Format (Expiration value) |}.

(** C7 as the specification states it, for the state after a resolution:
    both tiers hold the permissions, expiring at [expiration]. *)
Definition inBothTiers (authId : string) (permissions : list string)
           (expiration : time.Time) (w : World) : Prop :=
  cacheMap w !! authId
  = Some {| Permissions := permissions; Expiration := expiration |}
  /\ exists item,
      items (DynamoDb_ w) !! (authId, authId) = Some item
      /\ AuthCacheValueEntity.Permissions item = permissions.


(** The clock never goes back. *)
Definition monotone (env : Env) : Prop :=
  forall n m, (n <= m)%nat -> (clock env n <= clock env m)%Z.

(** ** Examples: an environment, tokens and states *)

Definition exampleConfig : AuthTokenConfig :=
  {| JwksUri := "https://idp.example/.well-known/jwks.json";
     Issuer := "https://idp.example/";
     ClientId := "client"; ClientSecret := "secret";
     TokenAudience := "https://api.example";
     ClientAudience := "https://idp.example/api/v2/";
     GrantType := "client_credentials" |}.

Definition signedToken (claims : gmap string jwt.Value) : jwt.Token :=
  {| jwt.Valid := true; jwt.Method := jwt.SigningMethodRSA "RS256";
     jwt.Header := <["alg" := jwt.Str "RS256"]> ∅; jwt.Claims := claims |}.

Definition baseClaims : gmap string jwt.Value :=
  <["iss" := jwt.Str "https://idp.example/"]>
    (<["aud" := jwt.Array [jwt.Str "https://api.example";
                           jwt.Str "https://idp.example/userinfo"]]> ∅).

Definition exampleClaims (sub scope : string) : gmap string jwt.Value :=
  <["scope" := jwt.Str scope]> (<["sub" := jwt.Str sub]> baseClaims).

Definition permission (name : string) : http.UserPermission :=
  {| http.PermissionName := name; http.Description := "";
     http.ResourceServerName := "api"; http.ResourceServerId := "https://api.example" |}.

Definition upstreamOk (names : list string) (_ : http.Request)
  : http.Response + error :=
  inl {| http.StatusCode := 200; http.Body := inl (map permission names) |}.

Definition upstreamDown (_ : http.Request) : http.Response + error :=
  inr "Get https://idp.example/: dial tcp: connection refused".

Definition exampleClock (n : nat) : time.Time :=
  (1700000000000000000 + Z.of_nat n * 1000000)%Z.

Definition exampleEnv (claims : gmap string jwt.Value)
           (upstream : http.Request -> http.Response + error) : Env :=
  {| Config := exampleConfig;
     JWTKeyFunction := Some (fun _ => (Some (signedToken claims), None));
     cachedToken := Some "service-token";
     NewRequest_err := fun _ => None;
     Do := upstream;
     clock := exampleClock |}.

Definition table (getErr putErr : option error) : DynamoDb :=
  {| items := ∅; GetItem_err := getErr; PutItem_err := putErr |}.

Definition freshWorld (ddb : DynamoDb) : World :=
  {| cacheMap := ∅; DynamoDb_ := ddb; ticks := 0; trace := [] |}.

Definition exampleRequest : APIGatewayCustomAuthorizerRequest :=
  tokenRequest "Bearer eyJhbGciOiJSUzI1NiJ9.e30.c2ln".

Definition tab : string := String "009"%char "".

(** A permission set written by a concurrent resolution for the subject
    of the examples: fresh for fifteen minutes from the first reading of
    [exampleClock]. *)
Definition concurrentValue : AuthCacheValue :=
  {| Permissions := ["read:a"];
     Expiration := time.Add (exampleClock 0) (15 * time.Minute)%Z |}.

Definition concurrentWrite : M unit :=
  let* _ := TryPut "auth0|u1" concurrentValue in
  ret tt.

(** The value cached by a fetch that read the clock for the [k]-th time. *)
Definition cachedValue (env : Env) (k : nat) (names : list string)
  : AuthCacheValue :=
  {| Permissions := names;
     Expiration := time.Add (clock env k) (15 * time.Minute)%Z |}.

(** C7 as the specification states it, for one resolution: the fetched
    permissions are returned and both tiers hold them afterwards. *)
Definition writesBothTiers (env : Env) (principalId : string) (w : World)
           (respBody : list http.UserPermission) : Prop :=
  exists w' expiration,
    getUserPermissions env principalId w
    = Ret ((strings.Join (map http.PermissionName respBody) ",", None), w')
    /\ inBothTiers principalId (map http.PermissionName respBody) expiration w'.

Definition throttled : DynamoDb :=
  table None (Some "ProvisionedThroughputExceededException").

Definition userEnv : Env :=
  exampleEnv (exampleClaims "auth0|u1" "openid") (upstreamOk ["read:a"; "write:b"]).

(** * Cold start: [acquireToken] and [InitLambda] *)

(** The client-credentials exchange, as [acquireToken] uses [net/http]
    and [encoding/json] for it. *)
Module oauth.

(** [TokenRequest], the body of the call. *)
Record TokenRequest : Type := {
  ClientId : string;
  ClientSecret : string;
  Audience : string;
  GrantType : string
}.

(** The POST that is sent: its URL, its [Content-Type] header and its
    body, which is [json.Marshal(request)]. *)
Record Post : Type := {
  URL : string;
  ContentType : string;
  Body : TokenRequest
}.

(** [respBody]: a field absent from the JSON keeps its zero value. *)
Record Token : Type := {
  AccessToken : string;
  Scope : string;
  ExpiresIn : Z;
  TokenType : string
}.

(** A response: its status and its body as [json.Decoder.Decode] reads
    it into [respBody]. *)
Record Response : Type := {
  StatusCode : Z;
  Body_ : Token + error
}.

End oauth.

Module cold.

(** An [aws.Config]: a handle that only the SDK clients look into. *)
Inductive awsConfig : Type := AwsConfig.

(** What [InitLambda] asks of the outside:
    - [LoadDefaultConfig] is the error of [config.LoadDefaultConfig], if any;
    - [Getenv] is [os.Getenv];
    - [GetParameter name] is the decrypted value that [ssMgr.GetParameter]
      returns for [name], and [None] when the call fails: its output is
      then [nil];
    - [Unmarshal text] is what [json.Unmarshal] leaves in a zero
      [AuthTokenConfig], whether or not it reports an error;
    - [NewDefaultCtx uri] is the key function of [keyfunc.NewDefaultCtx]
      for the one URL [uri], and [None] when it fails: the interface value
      is then [nil];
    - [NewRequest_err url] is the error of [http.NewRequest("POST", url, _)];
    - [Do] is [httpInstance.Do]. *)
Record Outside : Type := {
  LoadDefaultConfig : option error;
  Getenv : string -> string;
  GetParameter : string -> option string;
  Unmarshal : string -> AuthTokenConfig;
  NewDefaultCtx : string -> option (string -> option jwt.Token * option jwt.ParseError);
  NewRequest_err : string -> option error;
  Do : oauth.Post -> oauth.Response + error
}.

(** [AuthConfig]; the two clients are left to the outside. *)
Record AuthConfig : Type := {
  SSMConfigPath : string;
  Config : AuthTokenConfig;
  JWTKeyFunction : option (string -> option jwt.Token * option jwt.ParseError);
  TableName : string
}.

(** The package variables [Authorizer], [cachedToken] and [httpInstance]
    (its timeout); each is [nil] when the process starts. *)
Record Globals : Type := {
  Authorizer : option AuthConfig;
  cachedToken : option string;
  httpInstance : option time.Duration
}.

Definition processStart : Globals :=
  {| Authorizer := None; cachedToken := None; httpInstance := None |}.

End cold.

Definition errTokenStatus (code : Z) : error :=
  "error retrieving authorizer token: " +:+ itoa code.
Definition errTokenDecode (e : error) : error :=
  "error parsing authorizer token: " +:+ e.

Definition tokenPost (authConfig : AuthTokenConfig) : oauth.Post :=
  {| oauth.URL := Issuer authConfig +:+ "oauth/token";
     oauth.ContentType := "application/json";
     oauth.Body :=
       {| oauth.ClientId := ClientId authConfig;
          oauth.ClientSecret := ClientSecret authConfig;
          oauth.Audience := ClientAudience authConfig;
          oauth.GrantType := GrantType authConfig |} |}.

(** [acquireToken]: the new value of [cachedToken] and the error it
    returns.  [json.Marshal] of a struct of four strings has no failing
    case. *)
Definition acquireToken (out : cold.Outside) (authConfig : AuthTokenConfig)
           (cachedToken : option string) : option string * option error :=
  let reqUrl := Issuer authConfig +:+ "oauth/token" in
  match cold.NewRequest_err out reqUrl with
  | Some err => (cachedToken, Some err)
  | None =>
    match cold.Do out (tokenPost authConfig) with
    | inr err => (cachedToken, Some err)
    | inl resp =>
      if negb (oauth.StatusCode resp =? 200)%Z then
        (cachedToken, Some (errTokenStatus (oauth.StatusCode resp)))
      else
        match oauth.Body_ resp with
        | inr err => (cachedToken, Some (errTokenDecode err))
        | inl respBody => (Some (oauth.AccessToken respBody), None)
        end
    end
  end.

Definition errLoadConfig (e : error) : string :=
  "Unable to load SDK config, " +:+ e.

(** [InitLambda]: the package variables it leaves, or its panic.  What it
    prints is left out. *)
Definition InitLambda (out : cold.Outside) (awsConfig : option cold.awsConfig)
           (g : cold.Globals) : Outcome cold.Globals :=
  match awsConfig, cold.LoadDefaultConfig out with
  | None, Some err => Panic (errLoadConfig err)
  | _, _ =>
    let ssConfigPath := cold.Getenv out "AUTHORIZER_CONFIG_PATH" in
    match cold.GetParameter out ssConfigPath with
    | None => Panic nilDeref
    | Some parameter =>
      let authConfig := cold.Unmarshal out parameter in
      let kFunc := cold.NewDefaultCtx out (JwksUri authConfig) in
      let httpInstance := Some (15 * 1000 * time.Millisecond)%Z in
      let (cachedToken, _) := acquireToken out authConfig (cold.cachedToken g) in
      Ret {| cold.Authorizer :=
               Some {| cold.SSMConfigPath := ssConfigPath;
                       cold.Config := authConfig;
                       cold.JWTKeyFunction := kFunc;
                       cold.TableName := cold.Getenv out "AUTH_CACHE_TABLE_NAME" |};
             cold.cachedToken := cachedToken;
             cold.httpInstance := httpInstance |}
    end
  end.

(** [main] of [lambda/main.go] up to [lambda.Start]: [InitLambda(nil)]
    unless [Authorizer] is set. *)
Definition main (out : cold.Outside) (g : cold.Globals) : Outcome cold.Globals :=
  match cold.Authorizer g with
  | None => InitLambda out None g
  | Some _ => Ret g
  end.

(** What requests read of the package variables, the rest of the outside
    being [NewRequest_err], [Do] and [clock]. *)
Definition requestEnv (a : cold.AuthConfig) (g : cold.Globals)
           (newRequestErr : string -> option error)
           (do : http.Request -> http.Response + error)
           (clock : nat -> time.Time) : Env :=
  {| Config := cold.Config a;
     JWTKeyFunction := cold.JWTKeyFunction a;
     cachedToken := cold.cachedToken g;
     NewRequest_err := newRequestErr;
     Do := do;
     clock := clock |}.

(** * Vocabulary of the further properties *)

(** One of the six white-space bytes of ASCII. *)
Definition asciiSpace (c : ascii) : bool :=
  match byteval c with
  | 0x09 | 0x0A | 0x0B | 0x0C | 0x0D | 0x20 => true
  | _ => false
  end%Z.

(** The next [n] bytes, as far as there are any, are not ASCII. *)
Fixpoint contPrefix (n : nat) (s : string) : Prop :=
  match n, s with
  | S p, String c s' => (0x80 <= byteval c)%Z /\ contPrefix p s'
  | _, _ => True
  end.

(** A string that is not empty and has no ASCII white space in it. *)
Definition solid (w : string) : Prop :=
  w <> "" /\ allBytes (fun c => negb (asciiSpace c)) w = true.

(** [s] with every byte [old] replaced by [new]. *)
Fixpoint replaceByte (old new : ascii) (s : string) : string :=
  match s with
  | EmptyString => EmptyString
  | String c s' =>
    String (if Ascii.eqb c old then new else c) (replaceByte old new s')
  end.

(** The effect of a response: that of its first statement. *)
Definition effectOf (resp : APIGatewayCustomAuthorizerResponse) : option string :=
  Effect <$> Statement (PolicyDocument resp) !! 0%nat.

(** A cold start whose outside answers everything but the token
    exchange, and one where the parameter cannot be read. *)
Definition exampleOutside (tokenCall : oauth.Post -> oauth.Response + error)
  : cold.Outside :=
  {| cold.LoadDefaultConfig := None;
     cold.Getenv := fun name =>
       if String.eqb name "AUTHORIZER_CONFIG_PATH" then "/authorizer/config"
       else if String.eqb name "AUTH_CACHE_TABLE_NAME" then "svc-dev-app-auth-cache"
       else "";
     cold.GetParameter := fun name =>
       if String.eqb name "/authorizer/config" then Some "{...}" else None;
     cold.Unmarshal := fun _ => exampleConfig;
     cold.NewDefaultCtx := fun _ =>
       Some (fun _ => (Some (signedToken (exampleClaims "auth0|u1" "openid")), None));
     cold.NewRequest_err := fun _ => None;
     cold.Do := tokenCall |}.


Definition tokenRefused (_ : oauth.Post) : oauth.Response + error :=
  inl {| oauth.StatusCode := 401; oauth.Body_ := inr "unexpected EOF" |}.

Definition exampleKeyFunction : string -> option jwt.Token * option jwt.ParseError :=
  fun _ => (Some (signedToken (exampleClaims "auth0|u1" "openid")), None).

(** The package variables after the cold start of [exampleOutside]. *)
Definition exampleAuthConfig
           (keys : option (string -> option jwt.Token * option jwt.ParseError))
  : cold.AuthConfig :=
  {| cold.SSMConfigPath := "/authorizer/config";
     cold.Config := exampleConfig;
     cold.JWTKeyFunction := keys;
     cold.TableName := "svc-dev-app-auth-cache" |}.

Definition exampleGlobals
           (keys : option (string -> option jwt.Token * option jwt.ParseError))
           (serviceToken : option string) : cold.Globals :=
  {| cold.Authorizer := Some (exampleAuthConfig keys);
     cold.cachedToken := serviceToken;
     cold.httpInstance := Some (15 * 1000 * time.Millisecond)%Z |}.


(** ** The end-to-end test *)

(** [WhenWeSendAuthorizationToken]: [uuid] is the method ARN that
    [uuid.New().String()] draws. *)
Definition WhenWeSendAuthorizationToken (env : Env) (uuid token : string)
  : M (APIGatewayCustomAuthorizerResponse * option error) :=
  let authRequest :=
    {| Type_ := "TOKEN"; AuthorizationToken := token; MethodArn := uuid |} in
  Handler env authRequest.

Definition isSet {A : Type} (v : option A) : bool :=
  match v with
  | Some _ => true
  | None => false
  end.

(** [Test_Authorize_Should_Succeed] for the canary access token [canary]:
    whether its four assertions hold, or the panic of [Statement[0]]. The
    assertions of [assert] do not stop the test. *)
Definition Test_Authorize_Should_Succeed (env : Env) (uuid canary : string)
           (w : World) : Outcome bool :=
  let authToken := "Bearer " +:+ canary in
  match WhenWeSendAuthorizationToken env uuid authToken w with
  | Panic msg => Panic msg
  | Ret ((authResponse, err), _) =>
    match Statement (PolicyDocument authResponse) !! 0%nat with
    | None => Panic (indexPanic 0 (length (Statement (PolicyDocument authResponse))))
    | Some statement =>
      Ret (negb (isSet err)
           && String.eqb (Effect statement) "Allow"
           && isSet (Context_ authResponse !! "requesterId")
           && isSet (Context_ authResponse !! "permissions"))
    end
  end.

(** * Properties *)

(** ** The bearer-token extractor *)

Lemma matchHere_bearer (s : string) :
  regexp.matchHere bearerPattern s = String.prefix "Bearer " s.
Proof.
  unfold bearerPattern.
  do 7 (destruct s as [|? s]; [reflexivity|];
        cbn [regexp.matchHere String.prefix];
        match goal with
        | |- context [Ascii.eqb ?x ?c] =>
          destruct (Ascii.eqb_spec x c) as [->|Hne];
          [ cbn [andb]; destruct (ascii_dec c c) as [_|]; [|congruence]
          | cbn [andb]; destruct (ascii_dec c x) as [e|_]; [congruence|reflexivity] ]
        end).
  destruct s; reflexivity.
Qed.

Lemma MatchString_bearer (s : string) :
  regexp.MatchString bearerPattern s = strings.Contains s "Bearer ".
Proof.
  induction s as [|c s IH].
  - reflexivity.
  - cbn [regexp.MatchString strings.Contains].
    rewrite IH, matchHere_bearer. reflexivity.
Qed.

Lemma Fields_bearer (r : string) :
  strings.Fields ("Bearer " +:+ r) = "Bearer" :: strings.Fields r.
Proof. reflexivity. Qed.


Lemma append_snoc (w : string) (c : ascii) (r : string) :
  (w +:+ String c "") +:+ r = w +:+ String c r.
Proof.
  induction w as [|a w IH]; [reflexivity|].
  change (String a ((w +:+ String c "") +:+ r) = String a (w +:+ String c r)).
  now rewrite IH.
Qed.

Lemma append_empty_r (w : string) : w +:+ "" = w.
Proof.
  induction w as [|a w IH]; [reflexivity|].
  change (String a (w +:+ "") = String a w). now rewrite IH.
Qed.

Lemma decode_plain (c : ascii) (s : string) :
  (byteval c <? 0x80)%Z = true ->
  utf8.DecodeRuneInString (String c s) = (byteval c, 1%nat).
Proof.
  intros H. unfold utf8.DecodeRuneInString, utf8.first. rewrite H. reflexivity.
Qed.

Lemma fieldsLoop_plain (r : string) (w : string) :
  allBytes plainByte r = true ->
  strings.fieldsLoop unicode.IsSpace r 0 (Some w) = [w +:+ r].
Proof.
  revert w. induction r as [|c r IH]; intros w H.
  - cbn. now rewrite append_empty_r.
  - cbn [allBytes] in H. apply andb_prop in H as [Hc Hr].
    unfold plainByte in Hc. apply andb_prop in Hc as [Hlt Hsp].
    apply negb_true_iff in Hsp.
    cbn [strings.fieldsLoop]. rewrite (decode_plain c r Hlt), Hsp.
    cbn [Nat.sub strings.started]. rewrite (IH _ Hr), append_snoc. reflexivity.
Qed.

(** A non-empty string of plain bytes is one field. *)
Lemma Fields_plain (r : string) :
  r <> "" -> allBytes plainByte r = true -> strings.Fields r = [r].
Proof.
  intros Hne H. destruct r as [|c r]; [congruence|].
  cbn [allBytes] in H. apply andb_prop in H as [Hc Hr].
  unfold plainByte in Hc. apply andb_prop in Hc as [Hlt Hsp].
  apply negb_true_iff in Hsp.
  unfold strings.Fields, strings.FieldsFunc. cbn [strings.fieldsLoop].
  rewrite (decode_plain c r Hlt), Hsp. cbn [Nat.sub strings.started].
  now rewrite (fieldsLoop_plain r _ Hr).
Qed.


(** C2, as stated, fails: the pattern is not anchored and the token is the
    second white-space field of the header. A header that only contains
    [Bearer ] is accepted, and a remainder is cut at its first white space. *)
Lemma getToken_not_as_specified :
  ~ extractsAsSpecified (tokenRequest "xBearer abc")
  /\ ~ extractsAsSpecified (tokenRequest "Bearer a b").
Proof.
  split.
  - intros [Hfail _]. destruct (Hfail eq_refl) as [err Herr].
    vm_compute in Herr. discriminate Herr.
  - intros [_ Hok]. specialize (Hok "a" eq_refl). vm_compute in Hok.
    discriminate Hok.
Qed.

Lemma prefix_append (p r : string) : String.prefix p (p +:+ r) = true.
Proof.
  induction p as [|a p IH].
  - destruct r; reflexivity.
  - change (String a p +:+ r) with (String a (p +:+ r)).
    cbn [String.prefix]. destruct (ascii_dec a a); [exact IH | congruence].
Qed.

Lemma Contains_prefix (s substr : string) :
  String.prefix substr s = true -> strings.Contains s substr = true.
Proof. intros H. destruct s; cbn [strings.Contains]; now rewrite H. Qed.

(** C2 (amended): [getToken] returns an error for every header that does
    not contain [Bearer ]; a token it returns is the second white-space
    field of the header; and for a TOKEN request whose header is [Bearer ]
    followed by a remainder that is one field (not empty, no white space)
    it returns exactly that remainder. *)
Theorem getToken_extracts (event : APIGatewayCustomAuthorizerRequest) :
  (strings.Contains (AuthorizationToken event) "Bearer " = false ->
   exists err, getToken event = Ret ("", Some err))
  /\ (forall token, getToken event = Ret (token, None) ->
        strings.Fields (AuthorizationToken event) !! 1%nat = Some token)
  /\ (forall r, Type_ event = "TOKEN" ->
        AuthorizationToken event = "Bearer " +:+ r ->
        strings.Fields r = [r] ->
        getToken event = Ret (r, None)).
Proof.
  destruct event as [ty header arn]. cbn [AuthorizationToken Type_].
  unfold getToken. cbn [AuthorizationToken Type_].
  rewrite MatchString_bearer.
  split; [|split].
  - intros Hno. rewrite Hno. cbn [negb].
    destruct (negb (ty =? "TOKEN")%string); [eauto|].
    destruct (String.length header <=? 0)%nat; eauto.
  - intros token.
    destruct (negb (ty =? "TOKEN")%string); [discriminate|].
    destruct (String.length header <=? 0)%nat; [discriminate|].
    destruct (negb (strings.Contains header "Bearer ")); [discriminate|].
    destruct (strings.Fields header !! 1%nat) as [part|]; [|discriminate].
    intros [= ->]. reflexivity.
  - intros r -> -> Hone.
    rewrite Fields_bearer, Hone.
    rewrite (Contains_prefix _ _ (prefix_append "Bearer " r)). reflexivity.
Qed.

Lemma getToken_extracts_witness :
  (exists err, getToken (tokenRequest "bearer abc") = Ret ("", Some err))
  /\ strings.Fields "Bearer a.b.c" !! 1%nat = Some "a.b.c"
  /\ getToken (tokenRequest "Bearer a.b.c") = Ret ("a.b.c", None).
Proof.
  split; [|split].
  - apply (getToken_extracts (tokenRequest "bearer abc")). reflexivity.
  - apply (getToken_extracts (tokenRequest "Bearer a.b.c")). reflexivity.
  - apply (getToken_extracts (tokenRequest "Bearer a.b.c")); reflexivity.
Defined.

(** ** The handler, case by case *)

Ltac outcome_cases H :=
  repeat
    (cbn beta iota in H;
     match type of H with
     | Ret _ = Ret _ => fail 1
     | Panic _ = Ret _ => discriminate H
     | context [match ?x with _ => _ end] => destruct x eqn:?
     end).

(** What the handler does with a token that passed the checks up to the
    issuer: the subject, the scope, and the two kinds of subject. *)
Lemma Handler_verified (env : Env) (req : APIGatewayCustomAuthorizerRequest)
      (tok : jwt.Token) (w : World) :
  verified env req tok ->
  Handler env req w =
  match asString (jwt.Claims tok !! "sub") with
  | None => Ret ((getDenyResponse "" (MethodArn req) missingSub, None), w)
  | Some principalId =>
    match asString (jwt.Claims tok !! "scope") with
    | None =>
      Ret ((getDenyResponse principalId (MethodArn req) missingScope, None), w)
    | Some scopes =>
      if negb (strings.Contains principalId "auth0") then
        Ret ((getSuccessResponse principalId (MethodArn req)
                (allowContext principalId
                   (strings.Join (strings.Split scopes " ") ",")), None), w)
      else
        match getUserPermissions env principalId w with
        | Panic msg => Panic msg
        | Ret ((_, Some err), w') =>
          Ret ((getDenyResponse principalId (MethodArn req) err, None), w')
        | Ret ((permissions, None), w') =>
          Ret ((getSuccessResponse principalId (MethodArn req)
                  (allowContext principalId permissions), None), w')
        end
    end
  end.
Proof.
  intros (token & parse & audClaims & iss & Htok & Hkey & Hparse & Haud
          & Hloc & Hvalid & Hrsa & Halg & Hiss & Hcont).
  unfold Handler. rewrite Htok, Hkey, Hparse, Haud.
  unfold located in Hloc. rewrite Hloc. cbn [negb].
  rewrite Hvalid, Hrsa, Halg, Hiss, Hcont. cbn [negb].
  destruct (asString (jwt.Claims tok !! "sub")) as [principalId|];
    [|reflexivity].
  destruct (asString (jwt.Claims tok !! "scope")) as [scopes|];
    [|reflexivity].
  destruct (negb (strings.Contains principalId "auth0")); [reflexivity|].
  unfold bind.
  destruct (getUserPermissions env principalId w) as [[[permissions [err|]] w']|];
    reflexivity.
Qed.

(** C1 (the code at the failing inputs): a TOKEN request whose header is
    the bare prefix [Bearer ] makes the handler panic on [tokenParts[1]],
    in every environment and state; and so does a token that passed every
    check before the issuer and whose [iss] claim is absent or not a
    string, on the type assertion. *)
Theorem Handler_panics (env : Env) (w : World) :
  (forall methodArn,
      Handler env {| Type_ := "TOKEN"; AuthorizationToken := "Bearer ";
                     MethodArn := methodArn |} w
      = Panic "runtime error: index out of range [1] with length 1")
  /\ (forall req tok,
         verifiedButIssuer env req tok ->
         Handler env req w = Panic (conversionPanic (jwt.Claims tok !! "iss"))).
Proof.
  split.
  - intros methodArn. reflexivity.
  - intros req tok (token & parse & audClaims & Htok & Hkey & Hparse & Haud
                    & Hloc & Hvalid & Hrsa & Halg & Hiss).
    unfold Handler. rewrite Htok, Hkey, Hparse, Haud.
    unfold located in Hloc. rewrite Hloc. cbn [negb].
    rewrite Hvalid, Hrsa, Halg, Hiss. reflexivity.
Qed.

Lemma Handler_panics_witness :
  verifiedButIssuer
    (exampleEnv (delete "iss" (exampleClaims "svc@clients" "read:a")) (upstreamOk []))
    exampleRequest
    (signedToken (delete "iss" (exampleClaims "svc@clients" "read:a")))
  /\ Handler (exampleEnv (delete "iss" (exampleClaims "svc@clients" "read:a")) (upstreamOk []))
             exampleRequest (freshWorld (table None None))
     = Panic "interface conversion: interface {} is nil, not string".
Proof.
  assert (H : verifiedButIssuer
                (exampleEnv (delete "iss" (exampleClaims "svc@clients" "read:a")) (upstreamOk []))
                exampleRequest
                (signedToken (delete "iss" (exampleClaims "svc@clients" "read:a")))).
  { exists "eyJhbGciOiJSUzI1NiJ9.e30.c2ln",
           (fun _ => (Some (signedToken (delete "iss" (exampleClaims "svc@clients" "read:a"))), None)),
           ["https://api.example"; "https://idp.example/userinfo"].
    repeat split; vm_compute; reflexivity. }
  split; [exact H|].
  exact (proj2 (Handler_panics _ (freshWorld (table None None))) _ _ H).
Defined.

(** C10: when the handler returns, its [error] result is [nil]. *)
Theorem Handler_error_nil (env : Env) (req : APIGatewayCustomAuthorizerRequest)
        (w w' : World) (resp : APIGatewayCustomAuthorizerResponse)
        (err : option error) :
  Handler env req w = Ret ((resp, err), w') -> err = None.
Proof.
  unfold Handler, ret, panic, bind. intros H.
  outcome_cases H; injection H as _ <- _; reflexivity.
Qed.

Lemma Handler_error_nil_witness :
  exists resp err w',
    Handler (exampleEnv (exampleClaims "svc@clients" "read:a") (upstreamOk []))
            exampleRequest (freshWorld (table None None))
    = Ret ((resp, err), w')
    /\ err = None.
Proof.
  eexists _, _, _.
  assert (H : Handler (exampleEnv (exampleClaims "svc@clients" "read:a") (upstreamOk []))
                      exampleRequest (freshWorld (table None None))
              = Ret ((getSuccessResponse "svc@clients" (MethodArn exampleRequest)
                        (allowContext "svc@clients" "read:a"), None),
                     freshWorld (table None None))).
  { vm_compute. reflexivity. }
  split; [exact H|].
  exact (Handler_error_nil _ _ _ _ _ _ H).
Defined.

(** ** The shape of a decision *)

Lemma joined_is_joined (authCache : option AuthCacheValue) :
  exists l, joined authCache = strings.Join l ",".
Proof.
  destruct authCache as [v|]; [exists (Permissions v) | exists []]; reflexivity.
Qed.

Lemma resolveWith_joined (env : Env) (principalId : string)
      (authCache : option AuthCacheValue) (w w' : World) (s : string) :
  resolveWith env principalId authCache w = Ret ((s, None), w') ->
  exists l, s = strings.Join l ",".
Proof.
  unfold resolveWith, bind, ret. intros H.
  destruct (isFresh env authCache w) as [[[|] w1]|]; [| |discriminate].
  - injection H as <- _. apply joined_is_joined.
  - destruct (isFresh env authCache w1) as [[again w2]|]; [|discriminate].
    destruct (fetchPermissions env principalId w2) as [[sent w3]|]; [|discriminate].
    destruct again.
    + injection H as <- _. apply joined_is_joined.
    + destruct sent as [permissionsArray|err]; [|discriminate].
      injection H as <- _. eauto.
Qed.

Lemma getUserPermissions_joined (env : Env) (principalId : string)
      (w w' : World) (s : string) :
  getUserPermissions env principalId w = Ret ((s, None), w') ->
  exists l, s = strings.Join l ",".
Proof.
  unfold getUserPermissions, bind. intros H.
  destruct (TryGet env principalId w) as [[looked w1]|]; [|discriminate].
  eapply resolveWith_joined, H.
Qed.

Lemma deny_isDecision (principalId methodArn message : string) :
  isDecision methodArn (getDenyResponse principalId methodArn message).
Proof.
  exists "Deny". split; [reflexivity|]. left. split; [reflexivity|]. eauto.
Qed.

Lemma allow_isDecision (principalId methodArn : string) (l : list string) :
  isDecision methodArn
    (getSuccessResponse principalId methodArn
       (allowContext principalId (strings.Join l ","))).
Proof.
  exists "Allow". split; [reflexivity|]. right. split; [reflexivity|]. eauto.
Qed.

(** C9: each builder returns one statement [execute-api:Invoke] on the
    method ARN under version [2012-10-17], with effect Deny and the message
    under [ErrorMessage], or with effect Allow and the context it is
    given; and every response the handler returns is such a decision, an
    Allow one carrying [requesterId] and the comma-joined [permissions]. *)
Theorem decisions_have_one_shape :
  (forall principalId methodArn message,
      getDenyResponse principalId methodArn message
      = {| PrincipalID := principalId;
           PolicyDocument :=
             {| Version := "2012-10-17";
                Statement := [{| Action := ["execute-api:Invoke"];
                                 Effect := "Deny";
                                 Resource := [methodArn] |}] |};
           Context_ := <["ErrorMessage" := message]> ∅ |})
  /\ (forall principalId methodArn context,
         getSuccessResponse principalId methodArn context
         = {| PrincipalID := principalId;
              PolicyDocument :=
                {| Version := "2012-10-17";
                   Statement := [{| Action := ["execute-api:Invoke"];
                                    Effect := "Allow";
                                    Resource := [methodArn] |}] |};
              Context_ := context |})
  /\ (forall env req w resp err w',
         Handler env req w = Ret ((resp, err), w') ->
         isDecision (MethodArn req) resp).
Proof.
  split; [reflexivity|]. split; [reflexivity|].
  intros env req w resp err w'.
  unfold Handler, ret, panic, bind. intros H.
  outcome_cases H; injection H as <- _ _; subst;
    try apply deny_isDecision.
  - apply (allow_isDecision _ _ (strings.Split _ " ")).
  - match goal with
    | Hres : getUserPermissions _ _ _ = Ret _ |- _ =>
      destruct (getUserPermissions_joined _ _ _ _ _ Hres) as [names ->]
    end.
    apply allow_isDecision.
Qed.

Lemma decisions_have_one_shape_witness :
  isDecision (MethodArn exampleRequest)
    (getSuccessResponse "svc@clients" (MethodArn exampleRequest)
       (allowContext "svc@clients" "read:a,write:b")).
Proof.
  apply (proj2 (proj2 decisions_have_one_shape)
           (exampleEnv (exampleClaims "svc@clients" "read:a write:b") (upstreamOk []))
           exampleRequest (freshWorld (table None None)) _ None
           (freshWorld (table None None))).
  vm_compute. reflexivity.
Defined.

(** ** Subject and scope *)

Ltac example_verified claims :=
  exists "eyJhbGciOiJSUzI1NiJ9.e30.c2ln",
         (fun _ : string => (Some (signedToken claims), @None jwt.ParseError)),
         ["https://api.example"; "https://idp.example/userinfo"],
         "https://idp.example/";
  repeat split; vm_compute; reflexivity.

(** C5, as stated, fails: a subject that is the empty string passes the
    subject check (the token is then an app token and is allowed), and so
    does a scope that is the empty string. *)
Lemma empty_subject_and_scope_pass :
  ~ requiresSubjectAndScope
      (exampleEnv (exampleClaims "" "read:a") (upstreamOk []))
      exampleRequest (signedToken (exampleClaims "" "read:a"))
      (freshWorld (table None None))
  /\ ~ requiresSubjectAndScope
         (exampleEnv (exampleClaims "svc@clients" "") (upstreamOk []))
         exampleRequest (signedToken (exampleClaims "svc@clients" ""))
         (freshWorld (table None None)).
Proof.
  split.
  - intros [Hsub _]. destruct Hsub as [w' H]; [right; reflexivity|].
    vm_compute in H. discriminate H.
  - intros [_ Hscope]. destruct Hscope as (principalId & w' & H);
      [right; reflexivity|].
    vm_compute in H. discriminate H.
Qed.

(** C5 (amended): for a token that passed the checks up to the issuer, a
    [sub] claim that is absent or not a string gives the missing-subject
    Deny with an empty principal, and, the subject being a string, a scope
    claim that is absent or not a string gives the missing-scope Deny for
    that principal. The empty string passes both checks: an empty subject
    is an app subject and is allowed, and an app subject with an empty
    scope is allowed with empty permissions. *)
Theorem subject_and_scope_checks (env : Env)
        (req : APIGatewayCustomAuthorizerRequest) (tok : jwt.Token) (w : World) :
  verified env req tok ->
  (asString (jwt.Claims tok !! "sub") = None ->
   Handler env req w
   = Ret ((getDenyResponse "" (MethodArn req) missingSub, None), w))
  /\ (forall principalId,
         asString (jwt.Claims tok !! "sub") = Some principalId ->
         asString (jwt.Claims tok !! "scope") = None ->
         Handler env req w
         = Ret ((getDenyResponse principalId (MethodArn req) missingScope, None), w))
  /\ (forall scopes,
         jwt.Claims tok !! "sub" = Some (jwt.Str "") ->
         asString (jwt.Claims tok !! "scope") = Some scopes ->
         Handler env req w
         = Ret ((getSuccessResponse "" (MethodArn req)
                   (allowContext "" (strings.Join (strings.Split scopes " ") ",")),
                 None), w))
  /\ (forall principalId,
         asString (jwt.Claims tok !! "sub") = Some principalId ->
         strings.Contains principalId "auth0" = false ->
         jwt.Claims tok !! "scope" = Some (jwt.Str "") ->
         Handler env req w
         = Ret ((getSuccessResponse principalId (MethodArn req)
                   (allowContext principalId ""), None), w)).
Proof.
  intros Hv. rewrite (Handler_verified env req tok w Hv).
  repeat split.
  - intros ->. reflexivity.
  - intros principalId -> ->. reflexivity.
  - intros scopes -> Hscope. cbn [asString]. rewrite Hscope. reflexivity.
  - intros principalId -> Happ ->. cbn [asString]. rewrite Happ. reflexivity.
Qed.

Lemma subject_and_scope_checks_witness :
  Handler (exampleEnv (delete "sub" (exampleClaims "svc@clients" "read:a")) (upstreamOk []))
          exampleRequest (freshWorld (table None None))
  = Ret ((getDenyResponse "" (MethodArn exampleRequest) missingSub, None),
         freshWorld (table None None))
  /\ Handler (exampleEnv (exampleClaims "svc@clients" "") (upstreamOk []))
             exampleRequest (freshWorld (table None None))
     = Ret ((getSuccessResponse "svc@clients" (MethodArn exampleRequest)
               (allowContext "svc@clients" ""), None),
            freshWorld (table None None)).
Proof.
  split.
  - apply (subject_and_scope_checks
             (exampleEnv (delete "sub" (exampleClaims "svc@clients" "read:a")) (upstreamOk []))
             exampleRequest
             (signedToken (delete "sub" (exampleClaims "svc@clients" "read:a")))
             (freshWorld (table None None))).
    + example_verified (delete "sub" (exampleClaims "svc@clients" "read:a")).
    + vm_compute. reflexivity.
  - apply (subject_and_scope_checks
             (exampleEnv (exampleClaims "svc@clients" "") (upstreamOk []))
             exampleRequest (signedToken (exampleClaims "svc@clients" ""))
             (freshWorld (table None None))).
    + example_verified (exampleClaims "svc@clients" "").
    + vm_compute. reflexivity.
    + vm_compute. reflexivity.
    + vm_compute. reflexivity.
Defined.

(** ** App tokens *)

(** Cutting at the space character: two spaces in a row leave an empty
    permission between them, and a tab separates nothing. *)
Lemma Split_at_spaces_only :
  strings.Split "read:a  write:b" " " = ["read:a"; ""; "write:b"]
  /\ strings.Split ("read:a" +:+ tab +:+ "write:b") " "
     = ["read:a" +:+ tab +:+ "write:b"]
  /\ strings.Fields ("read:a" +:+ tab +:+ "write:b") = ["read:a"; "write:b"].
Proof. repeat split; reflexivity. Qed.

(** C6, as stated, fails: the scope claim is cut at the space character
    only, so a scope with a tab in it is one permission. *)
Lemma scope_not_split_on_white_space :
  ~ allowsScopeFields
      (exampleEnv (exampleClaims "svc@clients" ("read:a" +:+ tab +:+ "write:b"))
                  (upstreamOk []))
      exampleRequest "svc@clients" ("read:a" +:+ tab +:+ "write:b")
      (freshWorld (table None None)).
Proof.
  unfold allowsScopeFields. intros H. vm_compute in H. discriminate H.
Qed.

(** C6 (amended): for a token that passed the checks up to the issuer,
    whose subject is an app subject (it does not contain [auth0]) and
    whose scope claim is a string, the decision is Allow with the
    permissions being the scope claim cut at every space character and
    joined with commas; the state is left as it was: no cache lookup, no
    cache write, no clock reading and no upstream call. *)
Theorem app_token_allowed (env : Env) (req : APIGatewayCustomAuthorizerRequest)
        (tok : jwt.Token) (w : World) (principalId scopes : string) :
  verified env req tok ->
  asString (jwt.Claims tok !! "sub") = Some principalId ->
  strings.Contains principalId "auth0" = false ->
  asString (jwt.Claims tok !! "scope") = Some scopes ->
  Handler env req w
  = Ret ((getSuccessResponse principalId (MethodArn req)
            (allowContext principalId
               (strings.Join (strings.Split scopes " ") ",")), None), w).
Proof.
  intros Hv Hsub Happ Hscope.
  rewrite (Handler_verified env req tok w Hv), Hsub, Hscope, Happ.
  reflexivity.
Qed.

Lemma app_token_allowed_witness :
  Handler (exampleEnv (exampleClaims "svc@clients" "read:a write:b") upstreamDown)
          exampleRequest (freshWorld (table (Some "down") (Some "down")))
  = Ret ((getSuccessResponse "svc@clients" (MethodArn exampleRequest)
            (allowContext "svc@clients" "read:a,write:b"), None),
         freshWorld (table (Some "down") (Some "down"))).
Proof.
  apply (app_token_allowed
           (exampleEnv (exampleClaims "svc@clients" "read:a write:b") upstreamDown)
           exampleRequest (signedToken (exampleClaims "svc@clients" "read:a write:b"))
           (freshWorld (table (Some "down") (Some "down")))
           "svc@clients" "read:a write:b").
  - example_verified (exampleClaims "svc@clients" "read:a write:b").
  - vm_compute. reflexivity.
  - vm_compute. reflexivity.
  - vm_compute. reflexivity.
Defined.

(** ** The lookup and what follows it *)

(** Without a value from the lookup, the result is the goroutine's
    message. *)
Lemma resolveWith_none (env : Env) (principalId : string) (w : World) :
  resolveWith env principalId None w =
  match fetchPermissions env principalId w with
  | Panic msg => Panic msg
  | Ret (inl permissionsArray, w') =>
    Ret ((strings.Join permissionsArray ",", None), w')
  | Ret (inr err, w') => Ret (("", Some err), w')
  end.
Proof.
  unfold resolveWith, bind, ret. cbn.
  destruct (fetchPermissions env principalId w) as [[[?|?] ?]|]; reflexivity.
Qed.

(** A failing [GetItem]: [TryGet] returns no value and the wrapped error. *)
Lemma TryGet_read_error (env : Env) (authId : string) (w : World) (e : error) :
  GetItem_err (DynamoDb_ w) = Some e ->
  (forall v, cacheMap w !! authId = Some v ->
             time.After (Expiration v) (clock env (ticks w)) = false) ->
  exists w1,
    TryGet env authId w = Ret ((None, Some (errGetItem authId e)), w1)
    /\ cacheMap w1 = cacheMap w /\ DynamoDb_ w1 = DynamoDb_ w.
Proof.
  intros Herr Hstale. unfold TryGet, readItem, bind, emit, Now, ret.
  cbn [logged cacheMap ticks].
  destruct (cacheMap w !! authId) as [v|] eqn:Hv.
  - rewrite (Hstale v eq_refl). cbn. rewrite Herr. eauto.
  - cbn. rewrite Herr. eauto.
Qed.

(** C4, as stated, fails: the table refuses the read, the upstream call
    succeeds, and the decision is Allow. *)
Lemma read_error_not_denied :
  ~ deniesWith "ProvisionedThroughputExceededException"
      (Handler (exampleEnv (exampleClaims "auth0|u1" "openid") (upstreamOk ["read:a"]))
               exampleRequest
               (freshWorld (table (Some "ProvisionedThroughputExceededException") None))).
Proof.
  intros (resp & w' & H & Heffect & _).
  vm_compute in H. injection H as <- _.
  vm_compute in Heffect. discriminate Heffect.
Qed.

(** C4 (amended): when the read of the durable tier fails during a
    user-type resolution, [TryGet] returns the store's error and
    [getUserPermissions] drops it; the resolution goes on as on a miss,
    and the decision is that of the upstream call alone: Allow with the
    fetched permissions when it succeeds, Deny with the upstream error
    text when it fails. *)
Theorem read_error_is_a_miss (env : Env)
        (req : APIGatewayCustomAuthorizerRequest) (tok : jwt.Token) (w : World)
        (principalId scopes : string) (e : error) :
  verified env req tok ->
  asString (jwt.Claims tok !! "sub") = Some principalId ->
  strings.Contains principalId "auth0" = true ->
  asString (jwt.Claims tok !! "scope") = Some scopes ->
  GetItem_err (DynamoDb_ w) = Some e ->
  (forall v, cacheMap w !! principalId = Some v ->
             time.After (Expiration v) (clock env (ticks w)) = false) ->
  exists w1,
    TryGet env principalId w = Ret ((None, Some (errGetItem principalId e)), w1)
    /\ Handler env req w =
       match fetchPermissions env principalId w1 with
       | Panic msg => Panic msg
       | Ret (inl permissionsArray, w2) =>
         Ret ((getSuccessResponse principalId (MethodArn req)
                 (allowContext principalId (strings.Join permissionsArray ",")),
               None), w2)
       | Ret (inr err, w2) =>
         Ret ((getDenyResponse principalId (MethodArn req) err, None), w2)
       end.
Proof.
  intros Hv Hsub Huser Hscope Herr Hstale.
  destruct (TryGet_read_error env principalId w e Herr Hstale) as (w1 & Hget & _).
  exists w1. split; [exact Hget|].
  rewrite (Handler_verified env req tok w Hv), Hsub, Hscope, Huser. cbn [negb].
  unfold getUserPermissions, bind. rewrite Hget. cbn [fst].
  rewrite resolveWith_none.
  destruct (fetchPermissions env principalId w1) as [[[?|?] ?]|]; reflexivity.
Qed.

Lemma read_error_is_a_miss_witness :
  exists w1 w2,
    TryGet (exampleEnv (exampleClaims "auth0|u1" "openid") (upstreamOk ["read:a"]))
           "auth0|u1" (freshWorld (table (Some "ProvisionedThroughputExceededException") None))
    = Ret ((None, Some (errGetItem "auth0|u1" "ProvisionedThroughputExceededException")), w1)
    /\ Handler (exampleEnv (exampleClaims "auth0|u1" "openid") (upstreamOk ["read:a"]))
               exampleRequest
               (freshWorld (table (Some "ProvisionedThroughputExceededException") None))
       = Ret ((getSuccessResponse "auth0|u1" (MethodArn exampleRequest)
                 (allowContext "auth0|u1" "read:a"), None), w2).
Proof.
  destruct (read_error_is_a_miss
              (exampleEnv (exampleClaims "auth0|u1" "openid") (upstreamOk ["read:a"]))
              exampleRequest (signedToken (exampleClaims "auth0|u1" "openid"))
              (freshWorld (table (Some "ProvisionedThroughputExceededException") None))
              "auth0|u1" "openid" "ProvisionedThroughputExceededException")
    as (w1 & Hget & Hhandler).
  - example_verified (exampleClaims "auth0|u1" "openid").
  - vm_compute. reflexivity.
  - vm_compute. reflexivity.
  - vm_compute. reflexivity.
  - reflexivity.
  - intros v Hv. vm_compute in Hv. discriminate Hv.
  - exists w1. eexists. split; [exact Hget|].
    rewrite Hhandler. vm_compute in Hget. injection Hget as <-.
    vm_compute. reflexivity.
Defined.

(** ** The second test of the lookup *)

(** The second test asks the clock again and nothing else: with a clock
    that does not go back it fails whenever the first one did. *)
Lemma second_test_fails (env : Env) (authCache : option AuthCacheValue)
      (w w1 : World) :
  monotone env ->
  isFresh env authCache w = Ret (false, w1) ->
  exists w2, isFresh env authCache w1 = Ret (false, w2).
Proof.
  intros Hmono. unfold isFresh, bind, Now, ret.
  destruct authCache as [v|]; [|eauto].
  intros [= Hafter <-]. cbn [ticked ticks].
  eexists. f_equal. f_equal.
  unfold time.After in *. apply Z.ltb_ge in Hafter. apply Z.ltb_ge.
  specialize (Hmono (ticks w) (S (ticks w)) (Nat.le_succ_diag_r _)). lia.
Qed.

(** Once the first test has failed, so does the second, and the
    resolution waits for the goroutine: its result is the goroutine's
    message whatever the tiers hold by then. *)
Lemma resolveWith_waits (env : Env) (principalId : string)
      (authCache : option AuthCacheValue) (w w1 : World) :
  monotone env ->
  isFresh env authCache w = Ret (false, w1) ->
  exists w2,
    isFresh env authCache w1 = Ret (false, w2)
    /\ resolveWith env principalId authCache w =
       match fetchPermissions env principalId w2 with
       | Panic msg => Panic msg
       | Ret (inl permissionsArray, w') =>
         Ret ((strings.Join permissionsArray ",", None), w')
       | Ret (inr err, w') => Ret (("", Some err), w')
       end.
Proof.
  intros Hmono Hfirst.
  destruct (second_test_fails env authCache w w1 Hmono Hfirst) as [w2 Hsecond].
  exists w2. split; [exact Hsecond|].
  unfold resolveWith, bind, ret. rewrite Hfirst, Hsecond.
  destruct (fetchPermissions env principalId w2) as [[[?|?] ?]|]; reflexivity.
Qed.

(** Nothing taking place in between, this is [getUserPermissions]. *)
Lemma getUserPermissionsAmid_nothing (env : Env) (principalId : string) (w : World) :
  getUserPermissionsAmid env principalId (ret tt) w
  = getUserPermissions env principalId w.
Proof.
  unfold getUserPermissionsAmid, getUserPermissions, bind, ret.
  destruct (TryGet env principalId w) as [[looked w1]|]; reflexivity.
Qed.

(** C3 (the code at the failing input): the lookup finds nothing; a
    concurrent resolution then writes a fresh entry for the same subject
    to both tiers; the upstream call of this resolution fails. The
    resolution returns the upstream error, although the entry is in the
    ephemeral tier and still fresh when it ends, and a lookup made then
    returns it. *)
Theorem second_test_misses_concurrent_write :
  exists w',
    getUserPermissionsAmid
      (exampleEnv (exampleClaims "auth0|u1" "openid") upstreamDown)
      "auth0|u1" concurrentWrite (freshWorld (table None None))
    = Ret (("", Some "Get https://idp.example/: dial tcp: connection refused"), w')
    /\ cacheMap w' !! "auth0|u1" = Some concurrentValue
    /\ time.After (Expiration concurrentValue) (exampleClock (ticks w')) = true
    /\ exists w'',
        TryGet (exampleEnv (exampleClaims "auth0|u1" "openid") upstreamDown)
               "auth0|u1" w'
        = Ret ((Some concurrentValue, None), w'').
Proof.
  eexists. split; [vm_compute; reflexivity|].
  split; [vm_compute; reflexivity|].
  split; [vm_compute; reflexivity|].
  eexists. vm_compute. reflexivity.
Qed.

(** ** Fetching and caching *)

Lemma fifteen_minutes :
  (1000 * 900 * time.Millisecond)%Z = (15 * time.Minute)%Z.
Proof. reflexivity. Qed.

(** With a clock that does not go back, what has expired stays expired. *)
Lemma stale_stays_stale (env : Env) (n : nat) (v : AuthCacheValue) :
  monotone env ->
  time.After (Expiration v) (clock env n) = false ->
  staleFrom env n v.
Proof.
  intros Hmono Hn k Hk. unfold time.After in *.
  apply Z.ltb_ge in Hn. apply Z.ltb_ge.
  specialize (Hmono n k Hk). lia.
Qed.

(** With nothing usable in either tier, the lookup changes neither tier
    and what it returns, if anything, has expired. *)
Lemma TryGet_nothing_usable (env : Env) (authId : string) (w : World) :
  noUsableEntry env w authId ->
  exists authCache err w1,
    TryGet env authId w = Ret ((authCache, err), w1)
    /\ cacheMap w1 = cacheMap w /\ DynamoDb_ w1 = DynamoDb_ w
    /\ (ticks w <= ticks w1)%nat
    /\ (forall v, authCache = Some v -> staleFrom env (ticks w) v).
Proof.
  intros [Hmap Hitem].
  assert (Hread : forall w0 : World,
             cacheMap w0 = cacheMap w -> DynamoDb_ w0 = DynamoDb_ w ->
             (ticks w <= ticks w0)%nat ->
             exists authCache err w1,
               readItem authId w0 = Ret ((authCache, err), w1)
               /\ cacheMap w1 = cacheMap w /\ DynamoDb_ w1 = DynamoDb_ w
               /\ (ticks w <= ticks w1)%nat
               /\ (forall v, authCache = Some v -> staleFrom env (ticks w) v)).
  { intros w0 Hc Hd Ht. unfold readItem, bind, emit. cbn [logged DynamoDb_].
    rewrite Hd.
    destruct (GetItem_err (DynamoDb_ w)) as [e|] eqn:Herr.
    - do 3 eexists. split; [reflexivity|]. cbn. repeat split; try assumption.
      intros v [=].
    - destruct (items (DynamoDb_ w) !! (authId, authId)) as [item|] eqn:Hi.
      + destruct (UnmarshalMap item) as [v|e] eqn:Hu.
        * do 3 eexists. split; [reflexivity|]. cbn. repeat split; try assumption.
          intros v' [= <-]. eapply Hitem; eauto.
        * do 3 eexists. split; [reflexivity|]. cbn. repeat split; try assumption.
          intros v [=].
      + do 3 eexists. split; [reflexivity|]. cbn. repeat split; try assumption.
        intros v [=]. }
  unfold TryGet, bind, emit, Now, ret. cbn [logged cacheMap ticks].
  destruct (cacheMap w !! authId) as [v|] eqn:Hv.
  - rewrite (Hmap v eq_refl (ticks w) (le_n _)).
    apply Hread; cbn; auto.
  - apply Hread; cbn; auto.
Qed.

(** An expired value fails the freshness test, which changes no tier. *)
Lemma isFresh_stale (env : Env) (authCache : option AuthCacheValue)
      (n : nat) (w : World) :
  (forall v, authCache = Some v -> staleFrom env n v) ->
  (n <= ticks w)%nat ->
  exists w',
    isFresh env authCache w = Ret (false, w')
    /\ cacheMap w' = cacheMap w /\ DynamoDb_ w' = DynamoDb_ w
    /\ trace w' = trace w
    /\ (ticks w <= ticks w')%nat.
Proof.
  intros Hstale Hn. unfold isFresh, bind, Now, ret.
  destruct authCache as [v|].
  - rewrite (Hstale v eq_refl (ticks w) Hn). eexists. split; [reflexivity|].
    cbn. repeat split; auto.
  - eexists. split; [reflexivity|]. repeat split; auto.
Qed.

(** A successful upstream call: the value it caches and the state it
    leaves. *)
Lemma fetchPermissions_ok (env : Env) (principalId : string)
      (respBody : list http.UserPermission) (w : World) :
  fetchSucceeds env principalId respBody ->
  let value :=
      {| Permissions := map http.PermissionName respBody;
         Expiration := time.Add (clock env (ticks w)) (15 * time.Minute)%Z |} in
  exists w',
    fetchPermissions env principalId w
    = Ret (inl (map http.PermissionName respBody), w')
    /\ ticks w' = S (ticks w)
    /\ cacheMap w' = <[principalId := value]> (cacheMap w)
    /\ (exists accessToken,
           trace w' = (trace w ++ [HttpDo (permissionsRequest env principalId accessToken);
                                   CacheMapWrite principalId;
                                   PutItem (entityOf principalId value)])%list)
    /\ items (DynamoDb_ w')
       = match PutItem_err (DynamoDb_ w) with
         | None => <[(principalId, principalId) := entityOf principalId value]>
                     (items (DynamoDb_ w))
         | Some _ => items (DynamoDb_ w)
         end
    /\ GetItem_err (DynamoDb_ w') = GetItem_err (DynamoDb_ w)
    /\ PutItem_err (DynamoDb_ w') = PutItem_err (DynamoDb_ w).
Proof.
  intros (Hreq & accessToken & Htok & Hdo) value.
  unfold fetchPermissions. rewrite Hreq, Htok.
  unfold permissionsRequest in Hdo.
  unfold bind at 1. unfold emit at 1. rewrite Hdo.
  cbn [http.StatusCode http.Body Z.eqb Pos.eqb negb].
  unfold bind, Now, TryPut, storeCacheMap, putItem, bind, emit, ret.
  cbn [logged ticked withCacheMap cacheMap DynamoDb_ ticks trace
       Permissions Expiration].
  rewrite fifteen_minutes. fold value.
  destruct (PutItem_err (DynamoDb_ w)) as [e|] eqn:Hput.
  - eexists. split; [reflexivity|]. cbn. rewrite Hput.
    repeat split; try reflexivity.
    exists accessToken. rewrite <- !app_assoc. reflexivity.
  - eexists. split; [reflexivity|]. cbn. rewrite Hput.
    repeat split; try reflexivity.
    exists accessToken. rewrite <- !app_assoc. reflexivity.
Qed.

(** A fresh entry of the ephemeral tier answers the resolution alone. *)
Lemma getUserPermissions_hit (env : Env) (principalId : string)
      (v : AuthCacheValue) (w : World) :
  cacheMap w !! principalId = Some v ->
  time.After (Expiration v) (clock env (ticks w)) = true ->
  time.After (Expiration v) (clock env (S (ticks w))) = true ->
  getUserPermissions env principalId w
  = Ret ((strings.Join (Permissions v) ",", None),
         ticked (ticked (logged (CacheMapRead principalId) w))).
Proof.
  intros Hv H1 H2.
  unfold getUserPermissions, TryGet, bind, emit, Now, ret.
  cbn [logged cacheMap ticks]. rewrite Hv, H1. cbn [fst].
  unfold resolveWith, isFresh, bind, Now, ret. cbn [ticked logged ticks].
  rewrite H2. reflexivity.
Qed.

(** C7, as stated, fails: the write to the durable tier is best effort;
    when the table refuses it the permissions are returned and only the
    ephemeral tier holds them. *)
Lemma durable_write_can_fail :
  ~ writesBothTiers userEnv "auth0|u1" (freshWorld throttled)
      [permission "read:a"; permission "write:b"].
Proof.
  intros (w' & expiration & H & _ & item & Hitem & _).
  vm_compute in H. injection H as <-.
  vm_compute in Hitem. discriminate Hitem.
Qed.

(** C7 (amended): when neither tier holds a usable entry and the upstream
    call succeeds, the resolution returns the fetched permissions, joined;
    the value it caches expires fifteen minutes after the clock reading
    [k] taken for the write, which is the last reading of the resolution;
    the ephemeral tier holds that value; the write of its entity (the
    expiration in the layout of the table) to the durable tier is issued
    last, and the table holds the entity unless it refuses the write,
    which is ignored; and a second resolution for the subject whose two
    clock readings are before that expiration returns the same permissions
    and does one thing only, the read of the ephemeral tier. *)
Theorem fetched_permissions_are_cached (env : Env) (principalId : string)
        (w : World) (respBody : list http.UserPermission) :
  noUsableEntry env w principalId ->
  fetchSucceeds env principalId respBody ->
  exists w' k,
    getUserPermissions env principalId w
    = Ret ((strings.Join (map http.PermissionName respBody) ",", None), w')
    /\ (ticks w <= k)%nat /\ ticks w' = S k
    /\ cacheMap w'
       = <[principalId := cachedValue env k (map http.PermissionName respBody)]>
           (cacheMap w)
    /\ (exists before,
           trace w'
           = (before ++
              [CacheMapWrite principalId;
               PutItem (entityOf principalId
                          (cachedValue env k (map http.PermissionName respBody)))])%list)
    /\ items (DynamoDb_ w')
       = match PutItem_err (DynamoDb_ w) with
         | None =>
           <[(principalId, principalId) :=
               entityOf principalId
                 (cachedValue env k (map http.PermissionName respBody))]>
             (items (DynamoDb_ w))
         | Some _ => items (DynamoDb_ w)
         end
    /\ (time.After (time.Add (clock env k) (15 * time.Minute)%Z) (clock env (S k)) = true ->
        time.After (time.Add (clock env k) (15 * time.Minute)%Z) (clock env (S (S k))) = true ->
        getUserPermissions env principalId w'
        = Ret ((strings.Join (map http.PermissionName respBody) ",", None),
               ticked (ticked (logged (CacheMapRead principalId) w')))).
Proof.
  intros Hno Hfetch.
  destruct (TryGet_nothing_usable env principalId w Hno)
    as (authCache & err & w1 & Hget & Hc1 & Hd1 & Ht1 & Hstale).
  destruct (isFresh_stale env authCache (ticks w) w1 Hstale Ht1)
    as (w2 & Hf1 & Hc2 & Hd2 & _ & Ht2).
  assert (Ht12 : (ticks w <= ticks w2)%nat) by lia.
  destruct (isFresh_stale env authCache (ticks w) w2 Hstale Ht12)
    as (w3 & Hf2 & Hc3 & Hd3 & _ & Ht3).
  destruct (fetchPermissions_ok env principalId respBody w3 Hfetch)
    as (w4 & Hfp & Htick & Hcm & (accessToken & Htrace) & Hitems & _ & _).
  exists w4, (ticks w3).
  split.
  { unfold getUserPermissions, bind. rewrite Hget. cbn [fst].
    unfold resolveWith, bind, ret. rewrite Hf1, Hf2, Hfp. reflexivity. }
  split; [lia|]. split; [exact Htick|].
  split. { rewrite Hcm, Hc3, Hc2, Hc1. reflexivity. }
  split.
  { exists (trace w3 ++ [HttpDo (permissionsRequest env principalId accessToken)])%list.
    rewrite Htrace, <- app_assoc. reflexivity. }
  split. { rewrite Hitems, Hd3, Hd2, Hd1. reflexivity. }
  intros H1 H2.
  apply (getUserPermissions_hit
           env principalId
           (cachedValue env (ticks w3) (map http.PermissionName respBody))).
  - rewrite Hcm. apply lookup_insert_eq.
  - rewrite Htick. exact H1.
  - rewrite Htick. exact H2.
Qed.

Lemma fetched_permissions_are_cached_witness :
  exists w' k,
    getUserPermissions userEnv "auth0|u1" (freshWorld (table None None))
    = Ret (("read:a,write:b", None), w')
    /\ cacheMap w' !! "auth0|u1"
       = Some (cachedValue userEnv k ["read:a"; "write:b"])
    /\ items (DynamoDb_ w') !! ("auth0|u1", "auth0|u1")
       = Some (entityOf "auth0|u1" (cachedValue userEnv k ["read:a"; "write:b"]))
    /\ getUserPermissions userEnv "auth0|u1" w'
       = Ret (("read:a,write:b", None),
              ticked (ticked (logged (CacheMapRead "auth0|u1") w'))).
Proof.
  destruct (fetched_permissions_are_cached
              userEnv "auth0|u1" (freshWorld (table None None))
              [permission "read:a"; permission "write:b"])
    as (w' & k & Hres & Hk & Hticks & Hmap & _ & Hitems & Hagain).
  - split.
    + intros v Hv. vm_compute in Hv. discriminate Hv.
    + intros item v _ Hitem. vm_compute in Hitem. discriminate Hitem.
  - split; [reflexivity|]. exists "service-token". split; reflexivity.
  - exists w', k. split; [exact Hres|].
    split; [rewrite Hmap; apply lookup_insert_eq|].
    split; [rewrite Hitems; apply lookup_insert_eq|].
    apply Hagain.
    + vm_compute in Hres. injection Hres as <-.
      vm_compute in Hticks. injection Hticks as <-. vm_compute. reflexivity.
    + vm_compute in Hres. injection Hres as <-.
      vm_compute in Hticks. injection Hticks as <-. vm_compute. reflexivity.
Defined.

(** ** The round trip through the cache *)


Lemma TryGet_durable (env : Env) (authId : string)
      (item : AuthCacheValueEntity.t) (v : AuthCacheValue) (w : World) :
  cacheMap w !! authId = None ->
  GetItem_err (DynamoDb_ w) = None ->
  items (DynamoDb_ w) !! (authId, authId) = Some item ->
  UnmarshalMap item = inl v ->
  TryGet env authId w
  = Ret ((Some v, None),
         logged (GetItem (authId, authId)) (logged (CacheMapRead authId) w)).
Proof.
  intros Hv Herr Hitem Hdec. unfold TryGet, readItem, bind, emit, ret.
  cbn [logged cacheMap DynamoDb_]. rewrite Hv. cbn [logged DynamoDb_].
  rewrite Herr, Hitem, Hdec. reflexivity.
Qed.




(** * Further properties *)

(** ** What a returning handler has done *)

(** The returns of the handler, sorted: a Deny that left the state as it
    was, or a token that passed every check, for an app subject (Allow,
    state as it was) or for a user subject (the decision of the
    resolution). *)
Lemma Handler_cases (env : Env) (req : APIGatewayCustomAuthorizerRequest)
      (w w' : World) (resp : APIGatewayCustomAuthorizerResponse)
      (err : option error) :
  Handler env req w = Ret ((resp, err), w') ->
  err = None /\
  ((w' = w /\ exists principalId message,
               resp = getDenyResponse principalId (MethodArn req) message)
  \/ exists tok principalId scopes,
      verified env req tok
      /\ asString (jwt.Claims tok !! "sub") = Some principalId
      /\ asString (jwt.Claims tok !! "scope") = Some scopes
      /\ ((strings.Contains principalId "auth0" = false
           /\ w' = w
           /\ resp = getSuccessResponse principalId (MethodArn req)
                       (allowContext principalId
                          (strings.Join (strings.Split scopes " ") ",")))
          \/ (strings.Contains principalId "auth0" = true
              /\ exists res,
                  getUserPermissions env principalId w = Ret (res, w')
                  /\ resp = match res with
                            | (_, Some e) =>
                              getDenyResponse principalId (MethodArn req) e
                            | (permissions, None) =>
                              getSuccessResponse principalId (MethodArn req)
                                (allowContext principalId permissions)
                            end))).
Proof.
  unfold Handler, ret, panic, bind. intros H.
  outcome_cases H; injection H as <- <- <-; subst; (split; [reflexivity|]);
    try (left; split; [reflexivity|]; eauto; fail);
    right;
    match goal with
    | Htok : getToken req = Ret (?token, None),
      Hkey : JWTKeyFunction env = Some ?parse,
      Hparse : ?parse ?token = (Some ?tok, None),
      Haud : jwt.GetAudience (jwt.Claims ?tok) = inl ?auds,
      Hiss : asString (jwt.Claims ?tok !! "iss") = Some ?iss,
      Hsub : asString (jwt.Claims ?tok !! "sub") = Some ?sub,
      Hscope : asString (jwt.Claims ?tok !! "scope") = Some ?scopes |- _ =>
      exists tok, sub, scopes;
      split; [exists token, parse, auds, iss;
              repeat match goal with
                     | Hneg : negb _ = false |- _ => apply negb_false_iff in Hneg
                     end;
              repeat split; assumption|];
      split; [assumption|]; split; [assumption|]
    end.
  - left. repeat split.
    match goal with
    | Hneg : negb (strings.Contains _ "auth0") = true |- _ =>
      apply negb_true_iff in Hneg; exact Hneg
    end.
  - right. split.
    + match goal with
      | Hneg : negb (strings.Contains _ "auth0") = false |- _ =>
        apply negb_false_iff in Hneg; exact Hneg
      end.
    + eexists. split; [eassumption|]. reflexivity.
  - right. split.
    + match goal with
      | Hneg : negb (strings.Contains _ "auth0") = false |- _ =>
        apply negb_false_iff in Hneg; exact Hneg
      end.
    + eexists. split; [eassumption|]. reflexivity.
Qed.

(** X1: an Allow decision is issued only for a token that [jwt.Parse]
    accepted and that passed the audience, validity, RSA, [alg] and issuer
    checks, with a string subject and a string scope; its principal and
    its [requesterId] are that subject. *)
Theorem allow_only_verified (env : Env) (req : APIGatewayCustomAuthorizerRequest)
        (w w' : World) (resp : APIGatewayCustomAuthorizerResponse)
        (err : option error) :
  Handler env req w = Ret ((resp, err), w') ->
  effectOf resp = Some "Allow" ->
  exists tok principalId scopes,
    verified env req tok
    /\ asString (jwt.Claims tok !! "sub") = Some principalId
    /\ asString (jwt.Claims tok !! "scope") = Some scopes
    /\ PrincipalID resp = principalId
    /\ Context_ resp !! "requesterId" = Some principalId.
Proof.
  intros H Hallow.
  destruct (Handler_cases env req w w' resp err H)
    as [_ [(_ & p & m & ->) | (tok & principalId & scopes & Hv & Hsub & Hscope & Hkind)]].
  - discriminate Hallow.
  - exists tok, principalId, scopes. repeat (split; [assumption|]).
    destruct Hkind as [(_ & _ & ->) | (_ & [permissions [e|]] & _ & ->)];
      try discriminate Hallow; split; reflexivity.
Qed.

Lemma allow_only_verified_witness :
  exists tok principalId scopes,
    verified (exampleEnv (exampleClaims "svc@clients" "read:a") upstreamDown)
             exampleRequest tok
    /\ asString (jwt.Claims tok !! "sub") = Some principalId
    /\ asString (jwt.Claims tok !! "scope") = Some scopes
    /\ PrincipalID (getSuccessResponse "svc@clients" (MethodArn exampleRequest)
                      (allowContext "svc@clients" "read:a")) = principalId
    /\ Context_ (getSuccessResponse "svc@clients" (MethodArn exampleRequest)
                   (allowContext "svc@clients" "read:a")) !! "requesterId"
       = Some principalId.
Proof.
  apply (allow_only_verified
           (exampleEnv (exampleClaims "svc@clients" "read:a") upstreamDown)
           exampleRequest (freshWorld (table None None))
           (freshWorld (table None None)) _ None).
  - vm_compute. reflexivity.
  - reflexivity.
Defined.

(** X2: the handler leaves the state as it was (no cache lookup, no cache
    write, no clock reading, no upstream call) unless the token passed
    every check and its subject is a user subject. *)
Theorem state_untouched_unless_user (env : Env)
        (req : APIGatewayCustomAuthorizerRequest) (w w' : World)
        (resp : APIGatewayCustomAuthorizerResponse) (err : option error) :
  Handler env req w = Ret ((resp, err), w') ->
  w' = w
  \/ exists tok principalId scopes,
      verified env req tok
      /\ asString (jwt.Claims tok !! "sub") = Some principalId
      /\ strings.Contains principalId "auth0" = true
      /\ asString (jwt.Claims tok !! "scope") = Some scopes.
Proof.
  intros H.
  destruct (Handler_cases env req w w' resp err H)
    as [_ [(-> & _) | (tok & principalId & scopes & Hv & Hsub & Hscope & Hkind)]].
  - left. reflexivity.
  - destruct Hkind as [(_ & -> & _) | (Huser & _)].
    + left. reflexivity.
    + right. exists tok, principalId, scopes. auto.
Qed.

Lemma state_untouched_unless_user_witness :
  freshWorld (table None None) = freshWorld (table None None)
  \/ exists tok principalId scopes,
      verified (exampleEnv (exampleClaims "svc@clients" "read:a") upstreamDown)
               (tokenRequest "Basic dXNlcjpwdw==") tok
      /\ asString (jwt.Claims tok !! "sub") = Some principalId
      /\ strings.Contains principalId "auth0" = true
      /\ asString (jwt.Claims tok !! "scope") = Some scopes.
Proof.
  apply (state_untouched_unless_user
           (exampleEnv (exampleClaims "svc@clients" "read:a") upstreamDown)
           (tokenRequest "Basic dXNlcjpwdw==") (freshWorld (table None None))
           (freshWorld (table None None))
           (getDenyResponse "" (MethodArn (tokenRequest "Basic dXNlcjpwdw==")) "Unauthorized")
           None).
  vm_compute. reflexivity.
Defined.

(** ** When the handler returns *)

Lemma readItem_returns (authId : string) (w : World) :
  exists res w', readItem authId w = Ret (res, w')
                 /\ cacheMap w' = cacheMap w /\ DynamoDb_ w' = DynamoDb_ w.
Proof.
  unfold readItem, bind, emit. cbn [logged DynamoDb_].
  destruct (GetItem_err (DynamoDb_ w)); [eauto|].
  destruct (items (DynamoDb_ w) !! (authId, authId)) as [item|]; [|eauto].
  destruct (UnmarshalMap item); eauto.
Qed.

Lemma TryGet_returns (env : Env) (authId : string) (w : World) :
  exists res w', TryGet env authId w = Ret (res, w')
                 /\ cacheMap w' = cacheMap w /\ DynamoDb_ w' = DynamoDb_ w.
Proof.
  unfold TryGet, bind, emit, Now, ret. cbn [logged cacheMap ticks].
  destruct (cacheMap w !! authId) as [v|].
  - destruct (time.After (Expiration v) (clock env (ticks w))); [eauto|].
    apply (readItem_returns authId (ticked (logged (CacheMapRead authId) w))).
  - apply (readItem_returns authId (logged (CacheMapRead authId) w)).
Qed.

Lemma isFresh_returns (env : Env) (authCache : option AuthCacheValue) (w : World) :
  exists b w', isFresh env authCache w = Ret (b, w')
               /\ cacheMap w' = cacheMap w /\ DynamoDb_ w' = DynamoDb_ w.
Proof.
  unfold isFresh, bind, Now, ret. destruct authCache; eauto.
Qed.

Lemma TryPut_returns (authId : string) (value : AuthCacheValue) (w : World) :
  exists err w', TryPut authId value w = Ret (err, w').
Proof.
  unfold TryPut, storeCacheMap, putItem, bind, emit, ret.
  cbn [logged withCacheMap DynamoDb_].
  destruct (PutItem_err (DynamoDb_ w)); eauto.
Qed.

Lemma fetchPermissions_returns (env : Env) (principalId : string) (w : World) :
  cachedToken env <> None ->
  exists sent w', fetchPermissions env principalId w = Ret (sent, w').
Proof.
  intros Htok. unfold fetchPermissions.
  destruct (NewRequest_err env _); [unfold ret; eauto|].
  destruct (cachedToken env) as [accessToken|]; [|congruence].
  unfold bind at 1. unfold emit at 1.
  destruct (Do env _) as [resp|e]; [|unfold ret; eauto].
  destruct (negb (http.StatusCode resp =? 200)%Z); [unfold ret; eauto|].
  destruct (http.Body resp) as [respBody|e]; [|unfold ret; eauto].
  unfold bind at 1. unfold Now at 1. unfold bind.
  match goal with
  | |- context [TryPut ?id ?v ?w0] =>
    destruct (TryPut_returns id v w0) as (err & w1 & ->)
  end.
  unfold ret. eauto.
Qed.

Lemma getUserPermissions_returns (env : Env) (principalId : string) (w : World) :
  cachedToken env <> None ->
  exists res w', getUserPermissions env principalId w = Ret (res, w').
Proof.
  intros Htok. unfold getUserPermissions, bind.
  destruct (TryGet_returns env principalId w) as ([authCache e] & w1 & -> & _).
  cbn [fst]. unfold resolveWith, bind.
  destruct (isFresh_returns env authCache w1) as (fresh & w2 & -> & _).
  destruct fresh; [unfold ret; eauto|].
  destruct (isFresh_returns env authCache w2) as (again & w3 & -> & _).
  destruct (fetchPermissions_returns env principalId w3 Htok) as (sent & w4 & ->).
  destruct again; [unfold ret; eauto|].
  destruct sent; unfold ret; eauto.
Qed.

(** X3: the handler returns, with a [nil] error, whenever [getToken] does
    not panic, the key function and the service token were set at cold
    start, and every token that [jwt.Parse] accepts has a string [iss]
    claim: there is no other panic in the request path. *)
Theorem Handler_returns (env : Env) (req : APIGatewayCustomAuthorizerRequest)
        (w : World)
        (parse : string -> option jwt.Token * option jwt.ParseError) :
  (forall msg, getToken req <> Panic msg) ->
  JWTKeyFunction env = Some parse ->
  cachedToken env <> None ->
  (forall token tok, parse token = (Some tok, None) ->
                     asString (jwt.Claims tok !! "iss") <> None) ->
  exists resp w', Handler env req w = Ret ((resp, None), w').
Proof.
  intros Hget Hkey Htok Hiss. unfold Handler.
  destruct (getToken req) as [[token [e|]]|msg];
    [unfold ret; eauto | | destruct (Hget msg eq_refl)].
  rewrite Hkey.
  destruct (parse token) as [decodedToken [e|]] eqn:Hparse.
  { destruct (jwt.isErrTokenMalformed e); [unfold ret; eauto|].
    destruct (jwt.isErrTokenSignatureInvalid e); [unfold ret; eauto|].
    destruct (_ || _); unfold ret; eauto. }
  destruct decodedToken as [tok|].
  2:{ unfold jwt.GetAudience, jwt.parseClaimsString. rewrite lookup_empty.
      cbn. unfold ret. eauto. }
  destruct (jwt.GetAudience (jwt.Claims tok)) as [audClaims|e];
    [|unfold ret; eauto].
  destruct (negb (existsb _ audClaims)); [unfold ret; eauto|].
  destruct (negb (jwt.Valid tok)); [unfold ret; eauto|].
  destruct (negb (isRSA (jwt.Method tok))); [unfold ret; eauto|].
  destruct (isNil (jwt.Header tok !! "alg")); [unfold ret; eauto|].
  destruct (asString (jwt.Claims tok !! "iss")) as [iss|] eqn:Hi;
    [|destruct (Hiss token tok Hparse Hi)].
  destruct (negb (strings.Contains iss _)); [unfold ret; eauto|].
  destruct (asString (jwt.Claims tok !! "sub")) as [principalId|];
    [|unfold ret; eauto].
  destruct (asString (jwt.Claims tok !! "scope")) as [scopes|];
    [|unfold ret; eauto].
  destruct (negb (strings.Contains principalId "auth0")); [unfold ret; eauto|].
  unfold bind.
  destruct (getUserPermissions_returns env principalId w Htok)
    as ([permissions [e|]] & w1 & ->); unfold ret; eauto.
Qed.

Lemma Handler_returns_witness :
  exists resp w',
    Handler (exampleEnv (exampleClaims "auth0|u1" "openid") upstreamDown)
            exampleRequest (freshWorld (table None None))
    = Ret ((resp, None), w').
Proof.
  apply (Handler_returns
           (exampleEnv (exampleClaims "auth0|u1" "openid") upstreamDown)
           exampleRequest (freshWorld (table None None))
           (fun _ => (Some (signedToken (exampleClaims "auth0|u1" "openid")), None))).
  - intros msg H. vm_compute in H. discriminate H.
  - reflexivity.
  - discriminate.
  - intros token tok [= <-] H. vm_compute in H. discriminate H.
Defined.

(** ** The two tiers *)

(** X4: a hit in the durable tier is not copied to the ephemeral tier.
    With nothing for the subject in [cacheMap] and a record in the table
    that decodes to a value still fresh at the clock reading, the
    resolution returns the permissions of the record after one read of
    each tier and no upstream call; [cacheMap] still has nothing for the
    subject, so that the next resolution reads the table again. *)
Theorem durable_hit_not_promoted (env : Env) (principalId : string)
        (item : AuthCacheValueEntity.t) (v : AuthCacheValue) (w : World) :
  cacheMap w !! principalId = None ->
  GetItem_err (DynamoDb_ w) = None ->
  items (DynamoDb_ w) !! (principalId, principalId) = Some item ->
  UnmarshalMap item = inl v ->
  time.After (Expiration v) (clock env (ticks w)) = true ->
  let w' := ticked (logged (GetItem (principalId, principalId))
                           (logged (CacheMapRead principalId) w)) in
  getUserPermissions env principalId w
  = Ret ((strings.Join (Permissions v) ",", None), w')
  /\ cacheMap w' !! principalId = None
  /\ (time.After (Expiration v) (clock env (ticks w')) = true ->
      getUserPermissions env principalId w'
      = Ret ((strings.Join (Permissions v) ",", None),
             ticked (logged (GetItem (principalId, principalId))
                            (logged (CacheMapRead principalId) w')))).
Proof.
  intros Hmiss Herr Hitem Hdec Hfresh w'.
  assert (Hone : forall w0 : World,
             cacheMap w0 !! principalId = None ->
             DynamoDb_ w0 = DynamoDb_ w ->
             time.After (Expiration v) (clock env (ticks w0)) = true ->
             getUserPermissions env principalId w0
             = Ret ((strings.Join (Permissions v) ",", None),
                    ticked (logged (GetItem (principalId, principalId))
                                   (logged (CacheMapRead principalId) w0)))).
  { intros w0 Hm Hd Hf. unfold getUserPermissions, bind.
    rewrite (TryGet_durable env principalId item v w0 Hm);
      [| rewrite Hd; assumption | rewrite Hd; assumption | assumption].
    cbn [fst]. unfold resolveWith, isFresh, bind, Now, ret.
    cbn [logged ticks]. rewrite Hf. reflexivity. }
  split; [apply Hone; auto|]. split; [exact Hmiss|].
  intros Hagain. apply Hone; auto.
Qed.

Lemma durable_hit_not_promoted_witness :
  getUserPermissions userEnv "auth0|u1"
    (withItems (<[("auth0|u1", "auth0|u1") := entityOf "auth0|u1" concurrentValue]> ∅)
               (freshWorld (table None None)))
  = Ret (("read:a", None),
         ticked (logged (GetItem ("auth0|u1", "auth0|u1"))
                   (logged (CacheMapRead "auth0|u1")
                      (withItems (<[("auth0|u1", "auth0|u1") := entityOf "auth0|u1" concurrentValue]> ∅)
                                 (freshWorld (table None None)))))).
Proof.
  apply (durable_hit_not_promoted userEnv "auth0|u1"
           (entityOf "auth0|u1" concurrentValue) concurrentValue
           (withItems (<[("auth0|u1", "auth0|u1") := entityOf "auth0|u1" concurrentValue]> ∅)
                      (freshWorld (table None None)))).
  - vm_compute. reflexivity.
  - reflexivity.
  - vm_compute. reflexivity.
  - vm_compute. reflexivity.
  - vm_compute. reflexivity.
Defined.

Lemma fetchPermissions_failed (env : Env) (principalId : string)
      (w w' : World) (e : error) :
  fetchPermissions env principalId w = Ret (inr e, w') ->
  cacheMap w' = cacheMap w /\ DynamoDb_ w' = DynamoDb_ w.
Proof.
  unfold fetchPermissions.
  destruct (NewRequest_err env _); [intros [= _ <-]; auto|].
  destruct (cachedToken env) as [accessToken|]; [|discriminate].
  unfold bind at 1. unfold emit at 1.
  destruct (Do env _) as [resp|e0]; [|intros [= _ <-]; auto].
  destruct (negb (http.StatusCode resp =? 200)%Z); [intros [= _ <-]; auto|].
  destruct (http.Body resp) as [respBody|e0]; [|intros [= _ <-]; auto].
  unfold bind at 1. unfold Now at 1. unfold bind.
  match goal with
  | |- context [TryPut ?id ?v ?w0] =>
    destruct (TryPut_returns id v w0) as (err & w1 & ->)
  end.
  discriminate.
Qed.

(** X5: a resolution that ends with an error returns no permissions and
    leaves both tiers as they were. *)
Theorem failed_resolution_writes_nothing (env : Env) (principalId : string)
        (w w' : World) (permissions : string) (e : error) :
  getUserPermissions env principalId w = Ret ((permissions, Some e), w') ->
  permissions = ""
  /\ cacheMap w' = cacheMap w
  /\ DynamoDb_ w' = DynamoDb_ w.
Proof.
  unfold getUserPermissions, bind.
  destruct (TryGet_returns env principalId w) as ([authCache e0] & w1 & -> & Hc1 & Hd1).
  cbn [fst]. unfold resolveWith, bind.
  destruct (isFresh_returns env authCache w1) as (fresh & w2 & -> & Hc2 & Hd2).
  destruct fresh; [discriminate|].
  destruct (isFresh_returns env authCache w2) as (again & w3 & -> & Hc3 & Hd3).
  destruct (fetchPermissions env principalId w3) as [[sent w4]|] eqn:Hfetch;
    [|discriminate].
  destruct again; [discriminate|].
  destruct sent as [permissionsArray|e1]; [discriminate|].
  intros [= <- _ <-].
  destruct (fetchPermissions_failed env principalId w3 w4 e1 Hfetch) as [Hc4 Hd4].
  split; [reflexivity|]. split; congruence.
Qed.

Lemma failed_resolution_writes_nothing_witness :
  exists w',
    getUserPermissions (exampleEnv (exampleClaims "auth0|u1" "openid") upstreamDown)
                       "auth0|u1" (freshWorld (table None None))
    = Ret (("", Some "Get https://idp.example/: dial tcp: connection refused"), w')
    /\ cacheMap w' = ∅
    /\ DynamoDb_ w' = table None None.
Proof.
  eexists.
  split; [vm_compute; reflexivity|].
  refine (proj2 (failed_resolution_writes_nothing
                   (exampleEnv (exampleClaims "auth0|u1" "openid") upstreamDown)
                   "auth0|u1" (freshWorld (table None None)) _ "" _ _)).
  vm_compute. reflexivity.
Defined.

(** X6: [TryPut] for one subject does not change what [TryGet] returns
    for any other subject. *)
Theorem TryPut_other_subject (env : Env) (authId other : string)
        (value : AuthCacheValue) (w w1 w2 : World) (err : option error)
        (res : option AuthCacheValue * option error) :
  other <> authId ->
  TryPut authId value w = Ret (err, w1) ->
  TryGet env other w = Ret (res, w2) ->
  exists w3, TryGet env other w1 = Ret (res, w3).
Proof.
  intros Hne Hput Hget.
  assert (Hstate : cacheMap w1 !! other = cacheMap w !! other
                   /\ items (DynamoDb_ w1) !! (other, other)
                      = items (DynamoDb_ w) !! (other, other)
                   /\ GetItem_err (DynamoDb_ w1) = GetItem_err (DynamoDb_ w)
                   /\ ticks w1 = ticks w).
  { revert Hput. unfold TryPut, storeCacheMap, putItem, bind, emit, ret.
    cbn [logged withCacheMap DynamoDb_ AuthCacheValueEntity.PK AuthCacheValueEntity.SK].
    destruct (PutItem_err (DynamoDb_ w)); intros [= _ <-]; cbn;
      rewrite ?lookup_insert_ne by congruence; auto. }
  destruct Hstate as (Hc & Hi & Hg & Ht).
  revert Hget. unfold TryGet, readItem, bind, emit, Now, ret.
  cbn [logged ticked cacheMap DynamoDb_ ticks].
  rewrite Hc, Ht.
  destruct (cacheMap w !! other) as [v|].
  - destruct (time.After (Expiration v) (clock env (ticks w))).
    + intros [= <- _]. eauto.
    + cbn [logged ticked cacheMap DynamoDb_ ticks]. rewrite Hg, Hi.
      destruct (GetItem_err (DynamoDb_ w)); [intros [= <- _]; eauto|].
      destruct (items (DynamoDb_ w) !! (other, other)) as [item|];
        [|intros [= <- _]; eauto].
      destruct (UnmarshalMap item); intros [= <- _]; eauto.
  - cbn [logged ticked cacheMap DynamoDb_ ticks]. rewrite Hg, Hi.
    destruct (GetItem_err (DynamoDb_ w)); [intros [= <- _]; eauto|].
    destruct (items (DynamoDb_ w) !! (other, other)) as [item|];
      [|intros [= <- _]; eauto].
    destruct (UnmarshalMap item); intros [= <- _]; eauto.
Qed.

Lemma TryPut_other_subject_witness :
  exists w3,
    TryGet userEnv "auth0|u2"
           (withItems (<[("auth0|u1", "auth0|u1") := entityOf "auth0|u1" concurrentValue]> ∅)
              (logged (PutItem (entityOf "auth0|u1" concurrentValue))
                 (withCacheMap (<["auth0|u1" := concurrentValue]> ∅)
                    (logged (CacheMapWrite "auth0|u1") (freshWorld (table None None))))))
    = Ret ((None, None), w3).
Proof.
  apply (TryPut_other_subject userEnv "auth0|u1" "auth0|u2" concurrentValue
           (freshWorld (table None None)) _
           (logged (GetItem ("auth0|u2", "auth0|u2"))
              (logged (CacheMapRead "auth0|u2") (freshWorld (table None None))))
           None (None, None)).
  - discriminate.
  - vm_compute. reflexivity.
  - vm_compute. reflexivity.
Defined.

(** X7: a second [TryPut] for a subject replaces the first in both
    tiers: the tiers are those that the second write alone leaves. *)
Theorem TryPut_replaces (authId : string) (first second : AuthCacheValue)
        (w w1 w2 w2' : World) (e1 e2 e2' : option error) :
  TryPut authId first w = Ret (e1, w1) ->
  TryPut authId second w1 = Ret (e2, w2) ->
  TryPut authId second w = Ret (e2', w2') ->
  cacheMap w2 = cacheMap w2' /\ DynamoDb_ w2 = DynamoDb_ w2' /\ e2 = e2'.
Proof.
  unfold TryPut, storeCacheMap, putItem, bind, emit, ret.
  cbn [logged withCacheMap DynamoDb_ AuthCacheValueEntity.PK AuthCacheValueEntity.SK].
  destruct (PutItem_err (DynamoDb_ w)) as [e|] eqn:Hput.
  - intros [= _ <-]. cbn. rewrite Hput.
    intros [= <- <-] [= <- <-]. cbn. rewrite insert_insert_eq. auto.
  - intros [= _ <-]. cbn. rewrite Hput. intros [= <- <-] [= <- <-]. cbn.
    rewrite !insert_insert_eq. auto.
Qed.

Lemma TryPut_replaces_witness :
  exists w1 w2 w2' e,
    TryPut "auth0|u1" (cachedValue userEnv 0 ["read:a"]) (freshWorld (table None None))
    = Ret (None, w1)
    /\ TryPut "auth0|u1" concurrentValue w1 = Ret (e, w2)
    /\ TryPut "auth0|u1" concurrentValue (freshWorld (table None None)) = Ret (e, w2')
    /\ cacheMap w2 = cacheMap w2' /\ DynamoDb_ w2 = DynamoDb_ w2'.
Proof.
  eexists _, _, _, _.
  split; [vm_compute; reflexivity|].
  split; [vm_compute; reflexivity|].
  split; [vm_compute; reflexivity|].
  refine (let H := TryPut_replaces "auth0|u1" (cachedValue userEnv 0 ["read:a"])
                     concurrentValue (freshWorld (table None None)) _ _ _ None None None
                     _ _ _ in conj (proj1 H) (proj1 (proj2 H)));
    vm_compute; reflexivity.
Defined.

(** X8: with a fresh entry in the ephemeral tier, a verified user token
    is allowed with the permissions of that entry after the read of
    [cacheMap] and two clock readings: neither the table nor the network
    is touched, whatever the service token and the upstream are. *)
Theorem ephemeral_hit_allowed (env : Env) (req : APIGatewayCustomAuthorizerRequest)
        (tok : jwt.Token) (w : World) (principalId scopes : string)
        (v : AuthCacheValue) :
  verified env req tok ->
  asString (jwt.Claims tok !! "sub") = Some principalId ->
  strings.Contains principalId "auth0" = true ->
  asString (jwt.Claims tok !! "scope") = Some scopes ->
  cacheMap w !! principalId = Some v ->
  time.After (Expiration v) (clock env (ticks w)) = true ->
  time.After (Expiration v) (clock env (S (ticks w))) = true ->
  Handler env req w
  = Ret ((getSuccessResponse principalId (MethodArn req)
            (allowContext principalId (strings.Join (Permissions v) ",")), None),
         ticked (ticked (logged (CacheMapRead principalId) w))).
Proof.
  intros Hv Hsub Huser Hscope Hentry H1 H2.
  rewrite (Handler_verified env req tok w Hv), Hsub, Hscope, Huser. cbn [negb].
  rewrite (getUserPermissions_hit env principalId v w Hentry H1 H2).
  reflexivity.
Qed.

Lemma ephemeral_hit_allowed_witness :
  Handler (exampleEnv (exampleClaims "auth0|u1" "openid") upstreamDown) exampleRequest
          (withCacheMap (<["auth0|u1" := concurrentValue]> ∅)
                        (freshWorld (table (Some "down") (Some "down"))))
  = Ret ((getSuccessResponse "auth0|u1" (MethodArn exampleRequest)
            (allowContext "auth0|u1" "read:a"), None),
         ticked (ticked (logged (CacheMapRead "auth0|u1")
            (withCacheMap (<["auth0|u1" := concurrentValue]> ∅)
                          (freshWorld (table (Some "down") (Some "down"))))))).
Proof.
  apply (ephemeral_hit_allowed
           (exampleEnv (exampleClaims "auth0|u1" "openid") upstreamDown)
           exampleRequest (signedToken (exampleClaims "auth0|u1" "openid"))
           _ "auth0|u1" "openid" concurrentValue).
  - example_verified (exampleClaims "auth0|u1" "openid").
  - vm_compute. reflexivity.
  - vm_compute. reflexivity.
  - vm_compute. reflexivity.
  - vm_compute. reflexivity.
  - vm_compute. reflexivity.
  - vm_compute. reflexivity.
Defined.

(** ** Scopes and permissions *)

Lemma splitLoop_nonempty (sep : ascii) (s cur : string) :
  strings.splitLoop sep s cur <> [].
Proof.
  revert cur. induction s as [|c s IH]; intros cur; cbn [strings.splitLoop].
  - discriminate.
  - destruct (Ascii.eqb c sep); [discriminate | apply IH].
Qed.

Lemma append_assoc (a b c : string) : (a +:+ b) +:+ c = a +:+ (b +:+ c).
Proof.
  induction a as [|x a IH]; [reflexivity|].
  change (String x ((a +:+ b) +:+ c) = String x (a +:+ (b +:+ c))).
  now rewrite IH.
Qed.

Lemma Join_splitLoop (sep new : ascii) (s cur : string) :
  strings.Join (strings.splitLoop sep s cur) (String new "")
  = cur +:+ replaceByte sep new s.
Proof.
  revert cur. induction s as [|c s IH]; intros cur;
    cbn [strings.splitLoop replaceByte].
  - cbn [strings.Join]. symmetry. apply append_empty_r.
  - destruct (Ascii.eqb c sep).
    + specialize (IH ""). pose proof (splitLoop_nonempty sep s "") as Hne.
      destruct (strings.splitLoop sep s "") as [|e rest] eqn:Hsplit;
        [congruence|].
      change (strings.Join (cur :: e :: rest) (String new ""))
        with (cur +:+ String new "" +:+ strings.Join (e :: rest) (String new "")).
      rewrite IH. reflexivity.
    + rewrite IH. apply append_snoc.
Qed.

(** X9: the [permissions] entry of an allowed app token is its scope
    claim with every space replaced by a comma; it is as long as the
    scope claim. *)
Theorem app_permissions_are_the_scope (env : Env)
        (req : APIGatewayCustomAuthorizerRequest) (tok : jwt.Token) (w : World)
        (principalId scopes : string) :
  verified env req tok ->
  asString (jwt.Claims tok !! "sub") = Some principalId ->
  strings.Contains principalId "auth0" = false ->
  asString (jwt.Claims tok !! "scope") = Some scopes ->
  exists resp,
    Handler env req w = Ret ((resp, None), w)
    /\ Context_ resp !! "permissions" = Some (replaceByte " " "," scopes)
    /\ String.length (replaceByte " " "," scopes) = String.length scopes.
Proof.
  intros Hv Hsub Happ Hscope.
  rewrite (Handler_verified env req tok w Hv), Hsub, Hscope, Happ. cbn [negb].
  eexists. split; [reflexivity|]. split.
  - cbn [getSuccessResponse Context_]. unfold allowContext.
    rewrite lookup_insert_eq. f_equal.
    unfold strings.Split. apply (Join_splitLoop " " "," scopes "").
  - clear. induction scopes as [|c s IH]; cbn; congruence.
Qed.

Lemma app_permissions_are_the_scope_witness :
  exists resp,
    Handler (exampleEnv (exampleClaims "svc@clients" "read:a  write:b") upstreamDown)
            exampleRequest (freshWorld (table None None))
    = Ret ((resp, None), freshWorld (table None None))
    /\ Context_ resp !! "permissions" = Some "read:a,,write:b"
    /\ String.length "read:a,,write:b" = String.length "read:a  write:b".
Proof.
  apply (app_permissions_are_the_scope
           (exampleEnv (exampleClaims "svc@clients" "read:a  write:b") upstreamDown)
           exampleRequest (signedToken (exampleClaims "svc@clients" "read:a  write:b"))
           (freshWorld (table None None)) "svc@clients" "read:a  write:b").
  - example_verified (exampleClaims "svc@clients" "read:a  write:b").
  - vm_compute. reflexivity.
  - vm_compute. reflexivity.
  - vm_compute. reflexivity.
Defined.

(** ** The issuer and the audience *)






Lemma claimStrings_invalid (key : string) (l : list jwt.Value) :
  (exists v, In v l /\ asString (Some v) = None) ->
  jwt.claimStrings key l = inr (jwt.errInvalidClaim key).
Proof.
  induction l as [|x l IH]; intros (v & Hin & Hv).
  - destruct Hin.
  - destruct Hin as [<-|Hin].
    + destruct x; try reflexivity. discriminate Hv.
    + destruct x; try reflexivity. cbn [jwt.claimStrings].
      rewrite IH by eauto. reflexivity.
Qed.

(** X11: the audience check comes first among the checks of an accepted
    token, and it has two Deny messages. A token without an [aud] claim
    is denied as missing the registered audience; a token whose [aud]
    claim is an array with an element that is not a string is denied as
    having an invalid claim, even when the registered audience is among
    its elements. Both leave the state as it was. *)
Theorem audience_denials (env : Env) (req : APIGatewayCustomAuthorizerRequest)
        (tok : jwt.Token) (w : World) (token : string)
        (parse : string -> option jwt.Token * option jwt.ParseError) :
  getToken req = Ret (token, None) ->
  JWTKeyFunction env = Some parse ->
  parse token = (Some tok, None) ->
  (jwt.Claims tok !! "aud" = None ->
   Handler env req w
   = Ret ((getDenyResponse "" (MethodArn req)
             "Unauthorized: Token 'aud' claim missing registered audience",
           None), w))
  /\ (forall l,
         jwt.Claims tok !! "aud" = Some (jwt.Array l) ->
         (exists v, In v l /\ asString (Some v) = None) ->
         Handler env req w
         = Ret ((getDenyResponse "" (MethodArn req)
                   "Unauthorized: Token missing 'aud' claim or claim is invalid",
                 None), w)).
Proof.
  intros Htok Hkey Hparse. split.
  - intros Haud. unfold Handler. rewrite Htok, Hkey, Hparse.
    unfold jwt.GetAudience, jwt.parseClaimsString. rewrite Haud. reflexivity.
  - intros l Haud Hbad. unfold Handler. rewrite Htok, Hkey, Hparse.
    unfold jwt.GetAudience, jwt.parseClaimsString. rewrite Haud.
    rewrite (claimStrings_invalid "aud" l Hbad). reflexivity.
Qed.

Lemma audience_denials_witness :
  Handler (exampleEnv (<["aud" := jwt.Array [jwt.Str "https://api.example"; jwt.Number 7]]>
                         (exampleClaims "svc@clients" "read:a")) upstreamDown)
          exampleRequest (freshWorld (table None None))
  = Ret ((getDenyResponse "" (MethodArn exampleRequest)
            "Unauthorized: Token missing 'aud' claim or claim is invalid", None),
         freshWorld (table None None)).
Proof.
  apply (audience_denials
           (exampleEnv (<["aud" := jwt.Array [jwt.Str "https://api.example"; jwt.Number 7]]>
                          (exampleClaims "svc@clients" "read:a")) upstreamDown)
           exampleRequest
           (signedToken (<["aud" := jwt.Array [jwt.Str "https://api.example"; jwt.Number 7]]>
                           (exampleClaims "svc@clients" "read:a")))
           (freshWorld (table None None)) "eyJhbGciOiJSUzI1NiJ9.e30.c2ln"
           (fun _ => (Some (signedToken (<["aud" := jwt.Array [jwt.Str "https://api.example"; jwt.Number 7]]>
                           (exampleClaims "svc@clients" "read:a"))), None)))
    with (l := [jwt.Str "https://api.example"; jwt.Number 7]).
  - vm_compute. reflexivity.
  - reflexivity.
  - reflexivity.
  - vm_compute. reflexivity.
  - exists (jwt.Number 7). split; [right; left; reflexivity | reflexivity].
Defined.

(** ** The token that [getToken] returns *)

Lemma byteval_range (c : ascii) : (0 <= byteval c < 256)%Z.
Proof.
  unfold byteval. pose proof (N_ascii_bounded c) as H. lia.
Qed.

Lemma asciiSpace_high (c : ascii) :
  (0x80 <= byteval c)%Z -> asciiSpace c = false.
Proof.
  unfold asciiSpace. intros H.
  destruct (byteval c) as [|p|p]; try reflexivity.
  do 8 (destruct p as [p|p|]; try reflexivity; try lia).
Qed.

Lemma asciiSpace_IsSpace (c : ascii) :
  unicode.IsSpace (byteval c) = false -> asciiSpace c = false.
Proof.
  unfold unicode.IsSpace, asciiSpace, unicode.MaxLatin1.
  pose proof (byteval_range c) as Hr.
  replace (byteval c <=? 255)%Z with true by (symmetry; apply Z.leb_le; lia).
  destruct (byteval c) as [|p|p]; try reflexivity.
  do 8 (destruct p as [p|p|]; try reflexivity; try discriminate).
Qed.

Lemma contPrefix_zero (s : string) : contPrefix 0 s.
Proof. destruct s; exact I. Qed.

(** The bytes that a rune takes after its first one are not ASCII. *)
Lemma decode_continuation (c : ascii) (s : string) (r : Z) (size : nat) :
  utf8.DecodeRuneInString (String c s) = (r, size) ->
  contPrefix (size - 1) s.
Proof.
  unfold utf8.DecodeRuneInString.
  generalize (byteval c) as b0. intros b0.
  generalize (Z.of_nat (String.length (String c s))) as n. intros n.
  unfold utf8.first.
  repeat match goal with
         | |- context [if (?a <? ?b)%Z then _ else _] =>
           destruct (a <? b)%Z eqn:?
         | |- context [if (?a =? ?b)%Z then _ else _] =>
           destruct (a =? b)%Z eqn:?
         end;
    cbn -[Z.ltb Z.land Z.lor Z.shiftl contPrefix Nat.sub];
    try (intros [= _ <-]; apply contPrefix_zero);
    repeat match goal with
           | |- context [if (?a <? ?b)%Z then _ else _] =>
             destruct (a <? b)%Z eqn:?
           | |- context [match ?t with EmptyString => _ | String _ _ => _ end] =>
             destruct t
           | |- context [if ?a || ?b then _ else _] =>
             destruct (a || b) eqn:?
           end;
    intros [= _ <-]; try apply contPrefix_zero;
    cbn [Nat.sub contPrefix];
    repeat match goal with
           | H : (_ || _) = false |- _ => apply orb_false_iff in H as [? ?]
           | H : (_ <? _)%Z = false |- _ => apply Z.ltb_ge in H
           end;
    repeat match goal with
           | H : context [utf8.acceptRanges ?x] |- _ =>
             let v := eval vm_compute in (utf8.acceptRanges x) in
             change (utf8.acceptRanges x) with v in H
           end;
    unfold utf8.locb, utf8.hicb in *; cbn [fst snd] in *;
    repeat split; try lia; try apply contPrefix_zero;
    repeat match goal with
           | |- context [match ?t with EmptyString => _ | String _ _ => _ end] =>
             destruct t
           end; cbn [contPrefix]; auto.
Qed.

Lemma decode_first_byte (c : ascii) (s : string) (r : Z) (size : nat) :
  utf8.DecodeRuneInString (String c s) = (r, size) ->
  unicode.IsSpace r = false ->
  asciiSpace c = false.
Proof.
  intros Hdec Hsp.
  destruct (byteval c <? 0x80)%Z eqn:Hlt.
  - rewrite (decode_plain c s Hlt) in Hdec. injection Hdec as <- _.
    apply asciiSpace_IsSpace, Hsp.
  - apply asciiSpace_high. apply Z.ltb_ge in Hlt. exact Hlt.
Qed.

Lemma allBytes_append (p : ascii -> bool) (a b : string) :
  allBytes p (a +:+ b) = allBytes p a && allBytes p b.
Proof.
  induction a as [|x a IH]; [reflexivity|].
  change (String x a +:+ b) with (String x (a +:+ b)).
  cbn [allBytes]. rewrite IH. apply andb_assoc.
Qed.

Lemma solid_snoc (cur : option string) (c : ascii) :
  (forall w, cur = Some w -> solid w) ->
  asciiSpace c = false ->
  solid (strings.started cur +:+ String c "").
Proof.
  intros Hcur Hc. split.
  - destruct (strings.started cur); discriminate.
  - rewrite allBytes_append. cbn [allBytes]. rewrite Hc. cbn [negb andb].
    rewrite andb_true_r.
    destruct cur as [w|]; [apply (Hcur w eq_refl) | reflexivity].
Qed.

(** Every field is solid. *)
Lemma fieldsLoop_solid (s : string) (pending : nat) (cur : option string) :
  contPrefix pending s ->
  (forall w, cur = Some w -> solid w) ->
  Forall solid (strings.fieldsLoop unicode.IsSpace s pending cur).
Proof.
  revert pending cur. induction s as [|c s IH]; intros pending cur Hcont Hcur.
  - cbn [strings.fieldsLoop]. destruct cur as [w|]; cbn; auto.
  - cbn [strings.fieldsLoop]. destruct pending as [|p].
    + destruct (utf8.DecodeRuneInString (String c s)) as [r size] eqn:Hdec.
      pose proof (decode_continuation c s r size Hdec) as Hnext.
      destruct (unicode.IsSpace r) eqn:Hsp.
      * apply Forall_app. split.
        -- destruct cur as [w|]; cbn; auto.
        -- apply IH; [exact Hnext | discriminate].
      * apply IH; [exact Hnext|].
        intros w [= <-]. apply solid_snoc; [exact Hcur|].
        apply (decode_first_byte c s r size Hdec Hsp).
    + cbn [contPrefix] in Hcont. destruct Hcont as [Hc Hrest].
      apply IH; [exact Hrest|].
      destruct cur as [w0|]; cbn [option_map]; [|discriminate].
      intros w [= <-].
      apply (solid_snoc (Some w0) c); [exact Hcur | apply asciiSpace_high, Hc].
Qed.

(** X12: a token that [getToken] returns is not empty and has no ASCII
    white space in it (space, tab, line feed, vertical tab, form feed,
    carriage return). *)
Theorem token_is_solid (event : APIGatewayCustomAuthorizerRequest)
        (token : string) :
  getToken event = Ret (token, None) ->
  token <> "" /\ allBytes (fun c => negb (asciiSpace c)) token = true.
Proof.
  unfold getToken.
  destruct (negb (Type_ event =? "TOKEN")%string); [discriminate|].
  destruct (String.length (AuthorizationToken event) <=? 0)%nat; [discriminate|].
  destruct (negb (regexp.MatchString bearerPattern (AuthorizationToken event)));
    [discriminate|].
  destruct (strings.Fields (AuthorizationToken event) !! 1%nat) as [part|] eqn:Hpart;
    [|discriminate].
  intros [= <-].
  pose proof (fieldsLoop_solid (AuthorizationToken event) 0 None
                               (contPrefix_zero _)) as Hall.
  rewrite Forall_lookup in Hall.
  apply (Hall ltac:(discriminate) 1%nat part Hpart).
Qed.

Lemma token_is_solid_witness :
  "a.b.c" <> "" /\ allBytes (fun c => negb (asciiSpace c)) "a.b.c" = true.
Proof.
  apply (token_is_solid (tokenRequest ("  Bearer a.b.c" +:+ tab +:+ "rest")) "a.b.c").
  vm_compute. reflexivity.
Defined.

(** X13: a request that is not of type TOKEN, or whose header does not
    contain [Bearer ] (the empty header included), is denied with the
    message [Unauthorized] and an empty principal before anything of the
    environment is used: the state is left as it was, whatever the cold
    start has set. *)
Theorem request_shape_denied (env : Env) (req : APIGatewayCustomAuthorizerRequest)
        (w : World) :
  Type_ req <> "TOKEN"
  \/ strings.Contains (AuthorizationToken req) "Bearer " = false ->
  Handler env req w
  = Ret ((getDenyResponse "" (MethodArn req) "Unauthorized", None), w).
Proof.
  intros Hshape. unfold Handler, getToken. rewrite MatchString_bearer.
  destruct (String.eqb_spec (Type_ req) "TOKEN") as [Hty|Hty]; [|reflexivity].
  destruct Hshape as [Hne|Hno]; [contradiction|]. cbn [negb].
  destruct (String.length (AuthorizationToken req) <=? 0)%nat; [reflexivity|].
  rewrite Hno. reflexivity.
Qed.

Lemma request_shape_denied_witness :
  Handler (exampleEnv (exampleClaims "svc@clients" "read:a") upstreamDown)
          (tokenRequest "") (freshWorld (table None None))
  = Ret ((getDenyResponse "" (MethodArn (tokenRequest "")) "Unauthorized", None),
         freshWorld (table None None)).
Proof.
  apply (request_shape_denied
           (exampleEnv (exampleClaims "svc@clients" "read:a") upstreamDown)
           (tokenRequest "") (freshWorld (table None None))).
  right. reflexivity.
Defined.

(** ** Cold start *)

(** [acquireToken] replaces [cachedToken] only when it returns no error. *)
Lemma acquireToken_failed (out : cold.Outside) (authConfig : AuthTokenConfig)
      (cachedToken : option string) :
  snd (acquireToken out authConfig cachedToken) <> None ->
  fst (acquireToken out authConfig cachedToken) = cachedToken.
Proof.
  unfold acquireToken.
  destruct (cold.NewRequest_err out _); [reflexivity|].
  destruct (cold.Do out _) as [resp|e]; [|reflexivity].
  destruct (negb (oauth.StatusCode resp =? 200)%Z); [reflexivity|].
  destruct (oauth.Body_ resp); [|reflexivity].
  cbn. congruence.
Qed.

Lemma acquireToken_ok (out : cold.Outside) (authConfig : AuthTokenConfig)
      (cachedToken : option string) :
  snd (acquireToken out authConfig cachedToken) = None <->
  cold.NewRequest_err out (Issuer authConfig +:+ "oauth/token") = None
  /\ exists respBody,
      cold.Do out (tokenPost authConfig)
      = inl {| oauth.StatusCode := 200; oauth.Body_ := inl respBody |}
      /\ fst (acquireToken out authConfig cachedToken)
         = Some (oauth.AccessToken respBody).
Proof.
  unfold acquireToken.
  destruct (cold.NewRequest_err out _) as [e|].
  { split; [discriminate | intros [[=] _]]. }
  destruct (cold.Do out _) as [[code body]|e].
  2:{ split; [discriminate | intros (_ & respBody & [=] & _)]. }
  cbn [oauth.StatusCode oauth.Body_].
  destruct (Z.eqb_spec code 200) as [->|Hcode]; cbn [negb].
  - destruct body as [respBody|e].
    + split; [|reflexivity]. intros _. split; [reflexivity|]. eauto.
    + split; [discriminate | intros (_ & respBody & [=] & _)].
  - split; [discriminate | intros (_ & respBody & [= Hc _] & _)]. congruence.
Qed.

(** X14: [InitLambda] goes through whenever the SDK configuration is
    given or loads and the parameter can be read: neither a failed key
    set nor a failed token exchange stops it, and [Authorizer] is set in
    every case. The service token it leaves is the access token of the
    exchange when the token endpoint answered 200 with a body that
    decodes (an absent [access_token] giving the empty string), and
    otherwise what it was before. *)
Theorem InitLambda_goes_through (out : cold.Outside)
        (awsConfig : option cold.awsConfig) (g : cold.Globals)
        (parameter : string) :
  awsConfig <> None \/ cold.LoadDefaultConfig out = None ->
  cold.GetParameter out (cold.Getenv out "AUTHORIZER_CONFIG_PATH") = Some parameter ->
  exists g' a,
    InitLambda out awsConfig g = Ret g'
    /\ cold.Authorizer g' = Some a
    /\ cold.Config a = cold.Unmarshal out parameter
    /\ cold.JWTKeyFunction a
       = cold.NewDefaultCtx out (JwksUri (cold.Unmarshal out parameter))
    /\ (forall respBody,
           cold.NewRequest_err out (Issuer (cold.Config a) +:+ "oauth/token") = None ->
           cold.Do out (tokenPost (cold.Config a))
           = inl {| oauth.StatusCode := 200; oauth.Body_ := inl respBody |} ->
           cold.cachedToken g' = Some (oauth.AccessToken respBody))
    /\ (snd (acquireToken out (cold.Config a) (cold.cachedToken g)) <> None ->
        cold.cachedToken g' = cold.cachedToken g).
Proof.
  intros Hcfg Hparam. unfold InitLambda. rewrite Hparam.
  set (authConfig := cold.Unmarshal out parameter).
  destruct (acquireToken out authConfig (cold.cachedToken g))
    as [cachedToken' err] eqn:Hacq.
  assert (Hret : forall body : cold.Globals,
             match awsConfig, cold.LoadDefaultConfig out with
             | None, Some e => Panic (errLoadConfig e)
             | _, _ => Ret body
             end = Ret body).
  { intros body. destruct awsConfig; [reflexivity|].
    destruct Hcfg as [H|H]; [congruence | rewrite H; reflexivity]. }
  do 2 eexists. split; [apply Hret|].
  cbn [cold.Authorizer cold.Config cold.JWTKeyFunction cold.cachedToken].
  split; [reflexivity|]. split; [reflexivity|]. split; [reflexivity|].
  fold authConfig. split.
  - intros respBody Hreq Hdo. cbn [cold.Config] in Hreq, Hdo.
    assert (Hok : snd (acquireToken out authConfig (cold.cachedToken g)) = None).
    { apply acquireToken_ok. split; [exact Hreq|]. eexists.
      split; [exact Hdo|]. unfold acquireToken. fold authConfig in Hreq.
      rewrite Hreq, Hdo. reflexivity. }
    apply acquireToken_ok in Hok as (_ & respBody' & Hdo' & Hfst).
    rewrite Hdo in Hdo'. injection Hdo' as <-.
    rewrite Hacq in Hfst. exact Hfst.
  - intros Hfail. cbn [cold.Config] in Hfail.
    pose proof (acquireToken_failed out authConfig _ Hfail) as H.
    rewrite Hacq in H. exact H.
Qed.

Lemma InitLambda_goes_through_witness :
  exists g' a,
    InitLambda (exampleOutside tokenRefused) None cold.processStart = Ret g'
    /\ cold.Authorizer g' = Some a
    /\ cold.Config a = exampleConfig
    /\ cold.cachedToken g' = None.
Proof.
  destruct (InitLambda_goes_through (exampleOutside tokenRefused) None
                                    cold.processStart "{...}")
    as (g' & a & Hinit & Ha & Hcfg & _ & _ & Hfail).
  - right. reflexivity.
  - reflexivity.
  - exists g', a. repeat (split; [assumption|]).
    apply Hfail. rewrite Hcfg. vm_compute. discriminate.
Defined.

(** [main] after a cold start that went through. *)
Lemma main_cold (out : cold.Outside) (g : cold.Globals) :
  main out cold.processStart = Ret g ->
  exists parameter a,
    cold.GetParameter out (cold.Getenv out "AUTHORIZER_CONFIG_PATH") = Some parameter
    /\ cold.Authorizer g = Some a
    /\ cold.Config a = cold.Unmarshal out parameter
    /\ cold.JWTKeyFunction a = cold.NewDefaultCtx out (JwksUri (cold.Config a))
    /\ cold.cachedToken g = fst (acquireToken out (cold.Config a) None).
Proof.
  unfold main, InitLambda. cbn [cold.processStart cold.Authorizer cold.cachedToken].
  destruct (cold.LoadDefaultConfig out); [discriminate|].
  destruct (cold.GetParameter out _) as [parameter|]; [|discriminate].
  destruct (acquireToken out (cold.Unmarshal out parameter) None)
    as [cachedToken' err] eqn:Hacq.
  intros [= <-]. exists parameter. eexists. split; [reflexivity|].
  cbn [cold.Authorizer cold.Config cold.JWTKeyFunction cold.cachedToken].
  split; [reflexivity|].
  cbn [cold.Authorizer cold.Config cold.JWTKeyFunction cold.cachedToken].
  rewrite Hacq. repeat split; reflexivity.
Qed.

(** X15: a token exchange that fails at cold start is found out by the
    first user-type request that needs the upstream. [main] returns and
    is not run again by a later [main]; with nothing usable cached for
    the subject of a verified user token and a well-formed URL, the
    handler then panics on the service token, which is [nil]. *)
Theorem failed_exchange_panics_later (out : cold.Outside) (g : cold.Globals)
        (a : cold.AuthConfig)
        (newRequestErr : string -> option error)
        (do : http.Request -> http.Response + error)
        (clock : nat -> time.Time)
        (req : APIGatewayCustomAuthorizerRequest) (tok : jwt.Token)
        (w : World) (principalId scopes : string) :
  main out cold.processStart = Ret g ->
  cold.Authorizer g = Some a ->
  snd (acquireToken out (cold.Config a) None) <> None ->
  verified (requestEnv a g newRequestErr do clock) req tok ->
  asString (jwt.Claims tok !! "sub") = Some principalId ->
  strings.Contains principalId "auth0" = true ->
  asString (jwt.Claims tok !! "scope") = Some scopes ->
  noUsableEntry (requestEnv a g newRequestErr do clock) w principalId ->
  newRequestErr (permissionsUrl (requestEnv a g newRequestErr do clock) principalId)
  = None ->
  main out g = Ret g
  /\ Handler (requestEnv a g newRequestErr do clock) req w = Panic nilDeref.
Proof.
  intros Hmain Ha Hfail Hv Hsub Huser Hscope Hno Hurl.
  split. { unfold main. rewrite Ha. reflexivity. }
  destruct (main_cold out g Hmain) as (parameter & a' & _ & Ha' & _ & _ & Htok).
  rewrite Ha in Ha'. injection Ha' as <-.
  rewrite (acquireToken_failed out (cold.Config a) None Hfail) in Htok.
  set (env := requestEnv a g newRequestErr do clock) in *.
  rewrite (Handler_verified env req tok w Hv), Hsub, Hscope, Huser. cbn [negb].
  destruct (TryGet_nothing_usable env principalId w Hno)
    as (authCache & err & w1 & Hget & _ & _ & Ht1 & Hstale).
  destruct (isFresh_stale env authCache (ticks w) w1 Hstale Ht1)
    as (w2 & Hf1 & _ & _ & _ & Ht2).
  assert (Ht12 : (ticks w <= ticks w2)%nat) by lia.
  destruct (isFresh_stale env authCache (ticks w) w2 Hstale Ht12)
    as (w3 & Hf2 & _).
  unfold getUserPermissions, bind. rewrite Hget. cbn [fst].
  unfold resolveWith, bind. rewrite Hf1, Hf2.
  unfold fetchPermissions.
  change (NewRequest_err env) with newRequestErr. rewrite Hurl.
  change (cachedToken env) with (cold.cachedToken g). rewrite Htok.
  reflexivity.
Qed.


Lemma failed_exchange_panics_later_witness :
  main (exampleOutside tokenRefused) (exampleGlobals (Some exampleKeyFunction) None)
  = Ret (exampleGlobals (Some exampleKeyFunction) None)
  /\ Handler (requestEnv (exampleAuthConfig (Some exampleKeyFunction))
                         (exampleGlobals (Some exampleKeyFunction) None)
                         (fun _ => None) (upstreamOk ["read:a"]) exampleClock)
             exampleRequest (freshWorld (table None None))
     = Panic nilDeref.
Proof.
  apply (failed_exchange_panics_later
           (exampleOutside tokenRefused)
           (exampleGlobals (Some exampleKeyFunction) None)
           (exampleAuthConfig (Some exampleKeyFunction))
           (fun _ => None) (upstreamOk ["read:a"]) exampleClock
           exampleRequest (signedToken (exampleClaims "auth0|u1" "openid"))
           (freshWorld (table None None)) "auth0|u1" "openid").
  - vm_compute. reflexivity.
  - reflexivity.
  - vm_compute. discriminate.
  - example_verified (exampleClaims "auth0|u1" "openid").
  - vm_compute. reflexivity.
  - vm_compute. reflexivity.
  - vm_compute. reflexivity.
  - split.
    + intros v Hv. vm_compute in Hv. discriminate Hv.
    + intros item v _ Hitem. vm_compute in Hitem. discriminate Hitem.
  - reflexivity.
Defined.


(** ** Upstream failures *)

(** With nothing usable in either tier, the handler's decision for a
    verified user token is that of the goroutine's message, the tiers
    being those of the start when the goroutine begins. *)
Lemma Handler_miss (env : Env) (req : APIGatewayCustomAuthorizerRequest)
      (tok : jwt.Token) (w : World) (principalId scopes : string) :
  verified env req tok ->
  asString (jwt.Claims tok !! "sub") = Some principalId ->
  strings.Contains principalId "auth0" = true ->
  asString (jwt.Claims tok !! "scope") = Some scopes ->
  noUsableEntry env w principalId ->
  exists w3,
    cacheMap w3 = cacheMap w /\ DynamoDb_ w3 = DynamoDb_ w
    /\ Handler env req w =
       match fetchPermissions env principalId w3 with
       | Panic msg => Panic msg
       | Ret (inl permissionsArray, w4) =>
         Ret ((getSuccessResponse principalId (MethodArn req)
                 (allowContext principalId (strings.Join permissionsArray ",")),
               None), w4)
       | Ret (inr err, w4) =>
         Ret ((getDenyResponse principalId (MethodArn req) err, None), w4)
       end.
Proof.
  intros Hv Hsub Huser Hscope Hno.
  destruct (TryGet_nothing_usable env principalId w Hno)
    as (authCache & err & w1 & Hget & Hc1 & Hd1 & Ht1 & Hstale).
  destruct (isFresh_stale env authCache (ticks w) w1 Hstale Ht1)
    as (w2 & Hf1 & Hc2 & Hd2 & _ & Ht2).
  assert (Ht12 : (ticks w <= ticks w2)%nat) by lia.
  destruct (isFresh_stale env authCache (ticks w) w2 Hstale Ht12)
    as (w3 & Hf2 & Hc3 & Hd3 & _).
  exists w3. split; [congruence|]. split; [congruence|].
  rewrite (Handler_verified env req tok w Hv), Hsub, Hscope, Huser. cbn [negb].
  unfold getUserPermissions, bind. rewrite Hget. cbn [fst].
  unfold resolveWith, bind, ret. rewrite Hf1, Hf2.
  destruct (fetchPermissions env principalId w3) as [[[?|?] ?]|]; reflexivity.
Qed.

(** X17: with nothing usable cached for the subject of a verified user
    token, an upstream answer whose status is not 200 (a 204 as much as a
    404) is a Deny for that subject with the message
    [error retrieving user permissions: ] followed by the status, and an
    answer 200 whose body does not decode is a Deny with the message
    [error parsing user permissions: ] followed by the decoder's error;
    both tiers are left as they were. *)
Theorem upstream_answer_denied (env : Env)
        (req : APIGatewayCustomAuthorizerRequest) (tok : jwt.Token) (w : World)
        (principalId scopes accessToken : string) (resp : http.Response) :
  verified env req tok ->
  asString (jwt.Claims tok !! "sub") = Some principalId ->
  strings.Contains principalId "auth0" = true ->
  asString (jwt.Claims tok !! "scope") = Some scopes ->
  noUsableEntry env w principalId ->
  NewRequest_err env (permissionsUrl env principalId) = None ->
  cachedToken env = Some accessToken ->
  Do env (permissionsRequest env principalId accessToken) = inl resp ->
  (http.StatusCode resp <> 200%Z ->
   exists w',
     Handler env req w
     = Ret ((getDenyResponse principalId (MethodArn req)
               (errStatus (http.StatusCode resp)), None), w')
     /\ cacheMap w' = cacheMap w /\ DynamoDb_ w' = DynamoDb_ w)
  /\ (forall e,
         http.StatusCode resp = 200%Z -> http.Body resp = inr e ->
         exists w',
           Handler env req w
           = Ret ((getDenyResponse principalId (MethodArn req) (errDecode e),
                   None), w')
           /\ cacheMap w' = cacheMap w /\ DynamoDb_ w' = DynamoDb_ w).
Proof.
  intros Hv Hsub Huser Hscope Hno Hurl Htok Hdo.
  destruct (Handler_miss env req tok w principalId scopes Hv Hsub Huser Hscope Hno)
    as (w3 & Hc & Hd & ->).
  unfold fetchPermissions. rewrite Hurl, Htok.
  unfold permissionsRequest in Hdo. unfold bind, emit. rewrite Hdo.
  split.
  - intros Hcode. apply Z.eqb_neq in Hcode. rewrite Hcode. cbn [negb].
    unfold ret. eexists. split; [reflexivity|]. cbn. auto.
  - intros e Hcode Hbody. rewrite Hcode, Hbody. cbn [Z.eqb Pos.eqb negb].
    unfold ret. eexists. split; [reflexivity|]. cbn. auto.
Qed.

Lemma upstream_answer_denied_witness :
  exists w',
    Handler (exampleEnv (exampleClaims "auth0|u1" "openid")
               (fun _ => inl {| http.StatusCode := 204; http.Body := inl [] |}))
            exampleRequest (freshWorld (table None None))
    = Ret ((getDenyResponse "auth0|u1" (MethodArn exampleRequest)
              "error retrieving user permissions: 204", None), w')
    /\ cacheMap w' = ∅ /\ DynamoDb_ w' = table None None.
Proof.
  apply (upstream_answer_denied
           (exampleEnv (exampleClaims "auth0|u1" "openid")
              (fun _ => inl {| http.StatusCode := 204; http.Body := inl [] |}))
           exampleRequest (signedToken (exampleClaims "auth0|u1" "openid"))
           (freshWorld (table None None)) "auth0|u1" "openid" "service-token"
           {| http.StatusCode := 204; http.Body := inl [] |}).
  - example_verified (exampleClaims "auth0|u1" "openid").
  - vm_compute. reflexivity.
  - vm_compute. reflexivity.
  - vm_compute. reflexivity.
  - split.
    + intros v Hv. vm_compute in Hv. discriminate Hv.
    + intros item v _ Hitem. vm_compute in Hitem. discriminate Hitem.
  - reflexivity.
  - reflexivity.
  - reflexivity.
  - discriminate.
Defined.

(** ** The timestamp of the table *)



(** ** The principal of a decision *)

(** X19: the principal of a decision, Allow or Deny, is either empty or
    the string [sub] claim of a token that passed every check up to the
    issuer: a Deny issued before that carries no principal. *)
Theorem principal_is_verified_subject (env : Env)
        (req : APIGatewayCustomAuthorizerRequest) (w w' : World)
        (resp : APIGatewayCustomAuthorizerResponse) (err : option error) :
  Handler env req w = Ret ((resp, err), w') ->
  PrincipalID resp = ""
  \/ exists tok,
      verified env req tok
      /\ asString (jwt.Claims tok !! "sub") = Some (PrincipalID resp).
Proof.
  unfold Handler, ret, panic, bind. intros H.
  outcome_cases H; injection H as <- _ _; subst;
    try (left; reflexivity);
    right;
    match goal with
    | Htok : getToken req = Ret (?token, None),
      Hkey : JWTKeyFunction env = Some ?parse,
      Hparse : ?parse ?token = (Some ?tok, None),
      Haud : jwt.GetAudience (jwt.Claims ?tok) = inl ?auds,
      Hiss : asString (jwt.Claims ?tok !! "iss") = Some ?iss,
      Hsub : asString (jwt.Claims ?tok !! "sub") = Some ?sub |- _ =>
      exists tok;
      split; [exists token, parse, auds, iss;
              repeat match goal with
                     | Hneg : negb _ = false |- _ => apply negb_false_iff in Hneg
                     end;
              repeat split; assumption
             | exact Hsub]
    end.
Qed.

Lemma principal_is_verified_subject_witness :
  PrincipalID (getDenyResponse "svc@clients" (MethodArn exampleRequest) missingScope) = ""
  \/ exists tok,
      verified (exampleEnv (delete "scope" (exampleClaims "svc@clients" "read:a")) upstreamDown)
               exampleRequest tok
      /\ asString (jwt.Claims tok !! "sub")
         = Some (PrincipalID (getDenyResponse "svc@clients" (MethodArn exampleRequest)
                                              missingScope)).
Proof.
  apply (principal_is_verified_subject
           (exampleEnv (delete "scope" (exampleClaims "svc@clients" "read:a")) upstreamDown)
           exampleRequest (freshWorld (table None None)) (freshWorld (table None None))
           _ None).
  vm_compute. reflexivity.
Defined.

(** ** The end-to-end test *)

(** X20: whenever the handler returns for the request that the test
    sends, the test does not panic on [Statement[0]], and its four
    assertions hold exactly when the decision is Allow. *)
Theorem test_passes_iff_allowed (env : Env) (uuid canary : string) (w w' : World)
        (resp : APIGatewayCustomAuthorizerResponse) (err : option error) :
  WhenWeSendAuthorizationToken env uuid ("Bearer " +:+ canary) w
  = Ret ((resp, err), w') ->
  exists passed,
    Test_Authorize_Should_Succeed env uuid canary w = Ret passed
    /\ (passed = true <-> effectOf resp = Some "Allow").
Proof.
  intros H. unfold Test_Authorize_Should_Succeed. rewrite H.
  unfold WhenWeSendAuthorizationToken in H.
  destruct (Handler_cases _ _ _ _ _ _ H)
    as [-> [(_ & p & m & ->) | (tok & principalId & scopes & _ & _ & _ & Hkind)]].
  - eexists. split; [reflexivity|]. cbn. split; discriminate.
  - assert (Hallow : forall permissions,
               negb (isSet (@None error))
               && String.eqb "Allow" "Allow"
               && isSet (allowContext principalId permissions !! "requesterId")
               && isSet (allowContext principalId permissions !! "permissions")
               = true).
    { intros permissions. unfold allowContext.
      rewrite lookup_insert_ne by discriminate.
      rewrite !lookup_insert_eq. reflexivity. }
    destruct Hkind as [(_ & _ & ->) | (_ & [permissions [e|]] & _ & ->)].
    + eexists. split; [reflexivity|].
      cbn [getSuccessResponse Context_ Effect]. rewrite Hallow.
      split; reflexivity.
    + eexists. split; [reflexivity|]. cbn. split; discriminate.
    + eexists. split; [reflexivity|].
      cbn [getSuccessResponse Context_ Effect]. rewrite Hallow.
      split; reflexivity.
Qed.

Lemma test_passes_iff_allowed_witness :
  exists passed,
    Test_Authorize_Should_Succeed
      (exampleEnv (exampleClaims "auth0|u1" "openid") (upstreamOk ["read:a"]))
      "0b0e7a5c-6d1f-4c3a-9a55-2f1d8f0c9e11" "eyJhbGciOiJSUzI1NiJ9.e30.c2ln"
      (freshWorld (table None None))
    = Ret passed
    /\ (passed = true <->
        effectOf (getSuccessResponse "auth0|u1" "0b0e7a5c-6d1f-4c3a-9a55-2f1d8f0c9e11"
                    (allowContext "auth0|u1" "read:a")) = Some "Allow").
Proof.
  refine (test_passes_iff_allowed
            (exampleEnv (exampleClaims "auth0|u1" "openid") (upstreamOk ["read:a"]))
            "0b0e7a5c-6d1f-4c3a-9a55-2f1d8f0c9e11" "eyJhbGciOiJSUzI1NiJ9.e30.c2ln"
            (freshWorld (table None None)) _ _ None _).
  vm_compute. reflexivity.
Defined.

(** ** The order of operations in a resolution *)

Lemma readItem_trace (authId : string) (w w' : World)
      (res : option AuthCacheValue * option error) :
  readItem authId w = Ret (res, w') ->
  trace w' = (trace w ++ [GetItem (authId, authId)])%list.
Proof.
  unfold readItem, bind, emit. cbn [logged DynamoDb_].
  destruct (GetItem_err (DynamoDb_ w)); [intros [= _ <-]; reflexivity|].
  destruct (items (DynamoDb_ w) !! (authId, authId)) as [item|];
    [|intros [= _ <-]; reflexivity].
  destruct (UnmarshalMap item); intros [= _ <-]; reflexivity.
Qed.

Lemma TryGet_trace (env : Env) (authId : string) (w w' : World)
      (res : option AuthCacheValue * option error) :
  TryGet env authId w = Ret (res, w') ->
  exists reads,
    trace w' = (trace w ++ CacheMapRead authId :: reads)%list
    /\ (reads = [] \/ reads = [GetItem (authId, authId)]).
Proof.
  unfold TryGet, bind, emit, Now, ret. cbn [logged cacheMap ticks].
  assert (Hread : forall w0 : World,
             trace w0 = (trace w ++ [CacheMapRead authId])%list ->
             readItem authId w0 = Ret (res, w') ->
             exists reads,
               trace w' = (trace w ++ CacheMapRead authId :: reads)%list
               /\ (reads = [] \/ reads = [GetItem (authId, authId)])).
  { intros w0 Ht H. apply readItem_trace in H. rewrite H, Ht, <- app_assoc.
    eauto. }
  destruct (cacheMap w !! authId) as [v|].
  - destruct (time.After (Expiration v) (clock env (ticks w))).
    + intros [= _ <-]. exists []. split; [reflexivity | auto].
    + apply Hread. reflexivity.
  - apply Hread. reflexivity.
Qed.

Lemma isFresh_trace (env : Env) (authCache : option AuthCacheValue)
      (w w' : World) (b : bool) :
  isFresh env authCache w = Ret (b, w') -> trace w' = trace w.
Proof.
  unfold isFresh, bind, Now, ret.
  destruct authCache; intros [= _ <-]; reflexivity.
Qed.

Lemma fetchPermissions_trace (env : Env) (principalId : string) (w w' : World)
      (sent : list string + error) :
  fetchPermissions env principalId w = Ret (sent, w') ->
  exists calls,
    trace w' = (trace w ++ calls)%list
    /\ (calls = []
        \/ exists req,
            calls = [HttpDo req]
            \/ exists item,
                calls = [HttpDo req; CacheMapWrite principalId; PutItem item]).
Proof.
  unfold fetchPermissions.
  destruct (NewRequest_err env _).
  { intros [= _ <-]. exists []. rewrite app_nil_r. auto. }
  destruct (cachedToken env) as [accessToken|]; [|discriminate].
  unfold bind at 1. unfold emit at 1.
  destruct (Do env _) as [resp|e].
  2:{ intros [= _ <-]. eexists. split; [reflexivity|]. right. eauto. }
  destruct (negb (http.StatusCode resp =? 200)%Z).
  { intros [= _ <-]. eexists. split; [reflexivity|]. right. eauto. }
  destruct (http.Body resp) as [respBody|e].
  2:{ intros [= _ <-]. eexists. split; [reflexivity|]. right. eauto. }
  unfold bind, Now, TryPut, storeCacheMap, putItem, bind, emit, ret.
  cbn [logged ticked withCacheMap DynamoDb_].
  destruct (PutItem_err (DynamoDb_ w)); intros [= _ <-]; cbn [trace logged ticked withCacheMap withItems];
    (eexists; split; [rewrite <- !app_assoc; reflexivity|]; right; eauto).
Qed.

(** X21: a resolution that returns has read the ephemeral tier first,
    then the table at most once, then called the upstream at most once,
    and written to the tiers only after an upstream call, the ephemeral
    tier before the table; it has done nothing else. *)
Theorem resolution_protocol (env : Env) (principalId : string) (w w' : World)
        (res : string * option error) :
  getUserPermissions env principalId w = Ret (res, w') ->
  exists reads calls,
    trace w' = (trace w ++ CacheMapRead principalId :: reads ++ calls)%list
    /\ (reads = [] \/ reads = [GetItem (principalId, principalId)])
    /\ (calls = []
        \/ exists req,
            calls = [HttpDo req]
            \/ exists item,
                calls = [HttpDo req; CacheMapWrite principalId; PutItem item]).
Proof.
  unfold getUserPermissions, bind.
  destruct (TryGet env principalId w) as [[[authCache e] w1]|] eqn:Hget;
    [|discriminate].
  destruct (TryGet_trace env principalId w w1 _ Hget) as (reads & Ht1 & Hreads).
  cbn [fst]. unfold resolveWith, bind.
  destruct (isFresh env authCache w1) as [[fresh w2]|] eqn:Hf1; [|discriminate].
  apply isFresh_trace in Hf1.
  destruct fresh.
  { intros [= _ <-]. exists reads, []. rewrite app_nil_r, Hf1. auto. }
  destruct (isFresh env authCache w2) as [[again w3]|] eqn:Hf2; [|discriminate].
  apply isFresh_trace in Hf2.
  destruct (fetchPermissions env principalId w3) as [[sent w4]|] eqn:Hfetch;
    [|discriminate].
  destruct (fetchPermissions_trace env principalId w3 w4 sent Hfetch)
    as (calls & Ht4 & Hcalls).
  assert (Htrace : trace w4
                   = (trace w ++ CacheMapRead principalId :: reads ++ calls)%list).
  { rewrite Ht4, Hf2, Hf1, Ht1, <- app_assoc. reflexivity. }
  destruct again; [intros [= _ <-]; eauto|].
  destruct sent; intros [= _ <-]; eauto.
Qed.

Lemma resolution_protocol_witness :
  exists reads calls,
    trace (ticked (withItems (<[("auth0|u1", "auth0|u1") :=
                                 entityOf "auth0|u1" (cachedValue userEnv 0 ["read:a"; "write:b"])]> ∅)
             (logged (PutItem (entityOf "auth0|u1" (cachedValue userEnv 0 ["read:a"; "write:b"])))
                (withCacheMap (<["auth0|u1" := cachedValue userEnv 0 ["read:a"; "write:b"]]> ∅)
                   (logged (CacheMapWrite "auth0|u1")
                      (logged (HttpDo (permissionsRequest userEnv "auth0|u1" "service-token"))
                         (logged (GetItem ("auth0|u1", "auth0|u1"))
                            (logged (CacheMapRead "auth0|u1")
                               (freshWorld (table None None))))))))))
    = ([] ++ CacheMapRead "auth0|u1" :: reads ++ calls)%list
    /\ (reads = [] \/ reads = [GetItem ("auth0|u1", "auth0|u1")])
    /\ (calls = []
        \/ exists req,
            calls = [HttpDo req]
            \/ exists item,
                calls = [HttpDo req; CacheMapWrite "auth0|u1"; PutItem item]).
Proof.
  apply (resolution_protocol userEnv "auth0|u1" (freshWorld (table None None)) _
                             ("read:a,write:b", None)).
  vm_compute. reflexivity.
Defined.
